(** * Paul Allen agent: ingestion script and chat handlers

    A shallow embedding of [src/router.py], [src/data_ingest/ingest.py] and
    [src/app.py].  The repository is glue code around third-party SDKs, so a
    program is embedded as a computation in a small state-and-exception monad
    that additionally records the ordered trace of observable events: log
    records, messages handed to the chat UI, and calls into the SDKs
    (Pinecone, LlamaIndex, OpenAI, semantic-router).  Everything the SDKs and
    the operating system answer is read from a [world] record. *)

From Stdlib Require Import ZArith String Ascii List Bool Lia.
From stdpp Require Import base option list gmap strings fin_maps pretty.
Import ListNotations.

Local Open Scope string_scope.
Local Open Scope list_scope.
Local Open Scope Z_scope.

(** ** Python values the scripts handle *)

(** Exceptions that occur in the two scripts. [SdkError] stands for any
    exception (a subclass of [Exception]) raised inside a third-party call. *)
Inductive exn :=
| ValueError (msg : string)
| TypeError (msg : string)
| SdkError (msg : string).

(** [str(e)] *)
Definition str_exn (e : exn) : string :=
  match e with ValueError m | TypeError m | SdkError m => m end.

(** How a computation ends: it returns, an exception escapes, or
    [sys.exit(code)] was called ([SystemExit] is not an [Exception], so no
    [except Exception] clause stops it). *)
Inductive outcome (A : Type) :=
| Returned (a : A)
| Raised (e : exn)
| Exited (code : Z).
Arguments Returned {A} a.
Arguments Raised {A} e.
Arguments Exited {A} code.

(** Exit status of the interpreter when a script's top level ends this way. *)
Definition exit_status {A} (o : outcome A) : Z :=
  match o with
  | Returned _ => 0
  | Raised _ => 1
  | Exited c => c
  end.

(** Truthiness of an [Optional[str]]: [None] and [""] are falsy. *)
Definition truthy (o : option string) : bool :=
  match o with
  | Some s => negb (String.eqb s "")
  | None => false
  end.

(** ** Observable events *)

Inductive level := INFO | WARNING | ERROR.

(** Chainlit elements attached to a message. *)
Inductive element :=
| Text (name content display : string)
| Image (path name display : string).

(** [cl.Message(content=..., elements=..., author=...)] *)
Record message := Message {
  content : string;
  elements : list element;
  author : option string
}.

(** A node (chunk) produced from the loaded documents. The embedding vector
    of a node is a list of floats computed remotely; it is not represented. *)
Record node := Node { node_id : string; node_text : string }.

(** A route of [semantic_router]. *)
Record Route := mkRoute { name : string; utterances : list string }.

(** Calls into third-party SDKs, with the arguments the scripts pass. *)
Inductive call :=
| LoadData (input_file : string)
| PineconeClient (api_key : option string)
| ListIndexes
| DeleteIndex (index_name : option string)
| CreateIndex (index_name : option string) (dimension : Z) (metric : string)
              (cloud region : option string)
| GetIndex (index_name : option string)
| OpenAIEmbedding (model : string) (dimensions : Z) (api_key : option string)
| SentenceSplitter (chunk_size chunk_overlap : Z)
| PineconeVectorStore (index_name : option string)
| StorageContextFromDefaults
| FromDocuments (documents : list string)
| OpenAIEncoder (model : string) (api_key : option string)
| SemanticRouter (routes : list Route) (auto_sync : string)
| FromVectorStore
| AsQueryEngine (streaming : bool) (similarity_top_k : Z)
| QueryEngineTool (tool_name description : string)
| OpenAI (model : string) (api_key : option string)
| ReActFromTools (verbose : bool)
| RouterCall (text : string)
| StreamChat (text : string).

(** Calls that contact a remote service (Pinecone control or data plane, the
    OpenAI API); the others only build local client objects or read local
    files. *)
Definition is_remote (c : call) : bool :=
  match c with
  | ListIndexes | DeleteIndex _ | CreateIndex _ _ _ _ _ | GetIndex _
  | FromDocuments _ | SemanticRouter _ _ | RouterCall _ | StreamChat _ => true
  | _ => false
  end.

(** What a run lets the outside see, in order. [Send], [StreamToken] and
    [Update] are the calls [msg.send()], [msg.stream_token(token)] and
    [msg.update()] of a Chainlit message; handing a message to the UI does
    not raise. *)
Inductive event :=
| Log (lv : level) (msg : string)
| Send (m : message)
| StreamToken (token : string)
| Update (m : message)
| Sdk (c : call).

(** The event does not configure an index or an embedding model with a
    dimension other than [d]. *)
Definition uses_dimension (d : Z) (e : event) : Prop :=
  match e with
  | Sdk (CreateIndex _ d' _ _ _) | Sdk (OpenAIEmbedding _ d' _) => d' = d
  | _ => True
  end.

Definition sdk_calls (t : list event) : list call :=
  omap (λ e, match e with Sdk c => Some c | _ => None end) t.

Definition remote_calls (t : list event) : list call :=
  List.filter is_remote (sdk_calls t).

Definition sent (t : list event) : list message :=
  omap (λ e, match e with Send m => Some m | _ => None end) t.

(** ** The environment of a run *)

Record world := World {
  (** [os.getenv] after [load_dotenv()] *)
  getenv : string → option string;
  (** [os.path.exists] *)
  path_exists : string → bool;
  (** [Some msg]: this SDK call raises an exception with text [msg]
      (network failure, rejected request, bad argument, ...) *)
  sdk_fault : call → option string;
  (** text of the documents [SimpleDirectoryReader] loads from a file *)
  read_documents : string → list string;
  (** the nodes [VectorStoreIndex.from_documents] derives from documents
      with the configured [SentenceSplitter]; node ids are fresh UUIDs *)
  split_nodes : list string → list node;
  (** [router_layer(text).name] *)
  route_of : string → option string;
  (** the fragments [response_gen] yields for a query, and the message of the
      exception that ends the generator early, if any *)
  agent_stream : string → list string * option string
}.

(** ** The monad *)

Definition M (S A : Type) : Type := S → outcome A * S * list event.

Definition ret {S A} (a : A) : M S A := λ s, (Returned a, s, []).

Definition bind {S A B} (m : M S A) (k : A → M S B) : M S B := λ s,
  match m s with
  | (Returned a, s1, t1) =>
      match k a s1 with (o, s2, t2) => (o, s2, t1 ++ t2) end
  | (Raised e, s1, t1) => (Raised e, s1, t1)
  | (Exited c, s1, t1) => (Exited c, s1, t1)
  end.

Notation "'let!' x ':=' m 'in' k" := (bind m (λ x, k))
  (at level 10, x name, m at level 100, k at level 200, only parsing).
Notation "m '>>' k" := (bind m (λ _, k))
  (at level 100, k at level 200, right associativity, only parsing).

Definition raise {S A} (e : exn) : M S A := λ s, (Raised e, s, []).
Definition sys_exit {S A} (code : Z) : M S A := λ s, (Exited code, s, []).
Definition emit {S} (e : event) : M S unit := λ s, (Returned tt, s, [e]).
Definition get {S} : M S S := λ s, (Returned s, s, []).
Definition put {S} (s : S) : M S unit := λ _, (Returned tt, s, []).

(** [try: body  except <catches> as e: handler e] *)
Definition try_except {S A} (body : M S A) (catches : exn → bool)
    (handler : exn → M S A) : M S A := λ s,
  match body s with
  | (Raised e, s1, t1) =>
      if catches e
      then match handler e s1 with (o, s2, t2) => (o, s2, t1 ++ t2) end
      else (Raised e, s1, t1)
  | r => r
  end.

Definition any_Exception (e : exn) : bool := true.
Definition ValueError_or_TypeError (e : exn) : bool :=
  match e with ValueError _ | TypeError _ => true | SdkError _ => false end.

Definition logging_info {S} (msg : string) : M S unit := emit (Log INFO msg).
Definition logging_warning {S} (msg : string) : M S unit := emit (Log WARNING msg).
Definition logging_error {S} (msg : string) : M S unit := emit (Log ERROR msg).

Definition outcome_of {S A} (r : outcome A * S * list event) : outcome A := r.1.1.
Definition state_of {S A} (r : outcome A * S * list event) : S := r.1.2.
Definition trace_of {S A} (r : outcome A * S * list event) : list event := r.2.


Section Effects.

Variable w : world.

(** The [int] builtin applied to a [str]: [None] when it raises
    [ValueError]. *)
Variable py_int : string → option Z.

(** A call into an SDK that has no effect on the state of the model: it is
    recorded, and it raises if the world says so. *)
Definition sdk {S} (c : call) : M S unit :=
  emit (Sdk c) >>
  match sdk_fault w c with
  | Some msg => raise (SdkError msg)
  | None => ret tt
  end.

Definition int {S} (x : string) : M S Z :=
  match py_int x with
  | Some n => ret n
  | None => raise (ValueError ("invalid literal for int() with base 10: " +:+ x))
  end.

End Effects.

(** [str(x)] for an [Optional[str]] *)
Definition str_opt (o : option string) : string := default "None" o.

(** [x in names] for an [Optional[str]] and a list of [str] *)
Definition py_in (x : option string) (names : list string) : bool :=
  match x with
  | Some n => bool_decide (n ∈ names)
  | None => false
  end.

(** ** [router.py] *)

Module Router.

Definition paul_allen_route : Route :=
  mkRoute "paul_allen_questions"
    [ "who is paul allen?";
      "tell me about paul allen's life";
      "what is paul allen known for?";
      "what was his role at microsoft?";
      "tell me about his business ventures and investments";
      "what is vulcan inc?";
      "did he have any patents?";
      "what's the story behind Traf-O-Data?";
      "describe paul allen's philanthropy";
      "what are the Allen Institutes?";
      "did he sign the giving pledge?";
      "tell me about his contributions to science and research";
      "what sports teams did he own?";
      "tell me about his yachts, Octopus and Tatoosh";
      "was he a musician?";
      "did he write a book?";
      "when did paul allen die?";
      "what was his involvement with SpaceShipOne?";
      "tell me about the Stratolaunch project";
      "was the bell from HMS Hood successfully retrieved?" ].

Definition greetings_route : Route :=
  mkRoute "greetings"
    ["hello"; "hi"; "hey"; "good morning"; "good afternoon"; "how are you today?"].

Definition farewells_route : Route :=
  mkRoute "farewells"
    ["goodbye"; "bye"; "see you later"; "take care"; "have a good one"].

Definition gratitude_route : Route :=
  mkRoute "gratitude"
    ["thank you"; "thanks"; "appreciate it"; "thanks for your help"; "you're welcome"].

Definition allowed_routes : list Route :=
  [paul_allen_route; greetings_route; farewells_route; gratitude_route].

End Router.

(** ** [data_ingest/ingest.py] *)

Module Ingest.

(** The Pinecone project the script talks to, as the Pinecone API describes
    it: named indexes; deleting removes an index and fails when there is
    none; creating adds an empty index and fails when the name is taken;
    upserting writes records by vector id. *)

(** A Pinecone index: its configuration and its records (vector id to the
    chunk text kept as metadata). *)
Record index_info := IndexInfo {
  ix_dimension : Z;
  ix_metric : string;
  ix_cloud : option string;
  ix_region : option string;
  ix_records : gmap string string
}.

(** The indexes of the Pinecone project, by name. *)
Abbreviation store := (gmap string index_info).

Definition chunk_count (ix : index_info) : nat := size (ix_records ix).

(** Upserting a node writes its record under its id, replacing a record that
    has the same id. *)
Definition upsert (recs : gmap string string) (n : node) : gmap string string :=
  <[node_id n := node_text n]> recs.

Definition upsert_all (ns : list node) (recs : gmap string string)
    : gmap string string :=
  foldl upsert recs ns.

Section Script.

Variable w : world.
Variable py_int : string → option Z.

(** *** Pinecone client operations *)

Definition list_indexes_names : M store (list string) :=
  sdk w ListIndexes >>
  let! s := get in
  ret (map_to_list s).*1.

Definition delete_index (index_name : option string) : M store unit :=
  sdk w (DeleteIndex index_name) >>
  let! s := get in
  match index_name with
  | None => raise (TypeError "name")
  | Some n =>
      match s !! n with
      | None => raise (SdkError "NOT_FOUND")
      | Some _ => put (delete n s)
      end
  end.

Definition create_index (index_name : option string) (dimension : Z)
    (metric : string) (cloud region : option string) : M store unit :=
  sdk w (CreateIndex index_name dimension metric cloud region) >>
  let! s := get in
  match index_name with
  | None => raise (TypeError "name")
  | Some n =>
      match s !! n with
      | Some _ => raise (SdkError "ALREADY_EXISTS")
      | None => put (<[n := IndexInfo dimension metric cloud region ∅]> s)
      end
  end.

(** [pc.Index(name)]: the handle is the name of an index that exists. *)
Definition Index (index_name : option string) : M store string :=
  sdk w (GetIndex index_name) >>
  let! s := get in
  match index_name with
  | None => raise (TypeError "name")
  | Some n =>
      match s !! n with
      | None => raise (SdkError "NOT_FOUND")
      | Some _ => ret n
      end
  end.

(** [VectorStoreIndex.from_documents(documents, storage_context=...)] with a
    storage context over the index [pinecone_index]: split, embed, upsert. *)
Definition from_documents (documents : list string) (pinecone_index : string)
    : M store unit :=
  sdk w (FromDocuments documents) >>
  let! s := get in
  match s !! pinecone_index with
  | None => raise (SdkError "NOT_FOUND")
  | Some ix =>
      put (<[pinecone_index :=
             IndexInfo (ix_dimension ix) (ix_metric ix) (ix_cloud ix)
               (ix_region ix)
               (upsert_all (split_nodes w documents) (ix_records ix))]> s)
  end.

(** *** The script *)

Definition default_input_file : string := "./data_ingest/paul_allen_data.txt".

Definition embedding_dim_message : string :=
  "EMBEDDING_DIM environment variable must be a valid integer. Defaulting to 1024.".

(** Lines 61-65: [int(os.getenv("EMBEDDING_DIM", "1024"))] under
    [try]/[except (ValueError, TypeError)]. *)
Definition load_embedding_dim {S} : M S Z :=
  try_except (int py_int (default "1024" (getenv w "EMBEDDING_DIM")))
    ValueError_or_TypeError
    (λ _, logging_error embedding_dim_message >> ret 1024).

(** The value [load_embedding_dim] produces. *)
Definition effective_dim : Z :=
  match py_int (default "1024" (getenv w "EMBEDDING_DIM")) with
  | Some d => d
  | None => 1024
  end.

(** [main()]; the argument is the value of [--input-file], if given. *)
Definition main (arg_input_file : option string) : M store unit :=
  let input_file := default default_input_file arg_input_file in
  let pinecone_index_name := getenv w "PINECONE_INDEX_NAME" in
  let pinecone_api_key := getenv w "PINECONE_API_KEY" in
  let pinecone_region := getenv w "PINECONE_REGION" in
  let pinecone_cloud := getenv w "PINECONE_CLOUD" in
  let openai_api_key := getenv w "OPENAI_API_KEY" in
  let embedding_model := default "text-embedding-3-small" (getenv w "EMBEDDING_MODEL") in
  let! embedding_dim := load_embedding_dim in
  if negb (forallb truthy [pinecone_index_name; pinecone_api_key; openai_api_key])
  then raise (ValueError "PINECONE_INDEX_NAME, PINECONE_API_KEY, or OPENAI_API_KEY is not set in the .env file.")
  else
  logging_info ("Configuration loaded. Using Pinecone index: '" +:+ str_opt pinecone_index_name +:+ "'") >>
  if negb (path_exists w input_file)
  then logging_error ("Input file not found at: " +:+ input_file) >>
       sys_exit 1
  else
  logging_info ("Loading data from '" +:+ input_file +:+ "'...") >>
  sdk w (LoadData input_file) >>
  let documents := read_documents w input_file in
  logging_info ("Successfully loaded " +:+ pretty (length documents) +:+ " document(s).") >>
  logging_info "Initializing Pinecone client..." >>
  sdk w (PineconeClient pinecone_api_key) >>
  let! names := list_indexes_names in
  (if py_in pinecone_index_name names
   then logging_warning ("Pinecone index '" +:+ str_opt pinecone_index_name +:+ "' already exists. Deleting it.") >>
        delete_index pinecone_index_name
   else ret tt) >>
  logging_info ("Creating new Pinecone index '" +:+ str_opt pinecone_index_name +:+ "' with " +:+ pretty embedding_dim +:+ " dimensions...") >>
  create_index pinecone_index_name embedding_dim "cosine" pinecone_cloud pinecone_region >>
  let! pinecone_index := Index pinecone_index_name in
  logging_info "Pinecone index created successfully." >>
  sdk w (OpenAIEmbedding embedding_model embedding_dim openai_api_key) >>
  sdk w (SentenceSplitter 256 20) >>
  sdk w (PineconeVectorStore (Some pinecone_index)) >>
  sdk w StorageContextFromDefaults >>
  logging_info "Creating VectorStoreIndex and ingesting documents into Pinecone..." >>
  from_documents documents pinecone_index >>
  logging_info "--- INGESTION COMPLETE ---" >>
  logging_info ("Data from '" +:+ input_file +:+ "' is now indexed in Pinecone index '" +:+ str_opt pinecone_index_name +:+ "'.").

(** The SDK calls of a run of [main] that goes through, in order; [existed]
    tells whether the index was there when the run began. *)
Definition success_calls (arg_input_file : option string) (n : string)
    (existed : bool) : list call :=
  let input_file := default default_input_file arg_input_file in
  let d := effective_dim in
  [LoadData input_file; PineconeClient (getenv w "PINECONE_API_KEY"); ListIndexes]
  ++ (if existed then [DeleteIndex (Some n)] else [])
  ++ [CreateIndex (Some n) d "cosine" (getenv w "PINECONE_CLOUD") (getenv w "PINECONE_REGION");
      GetIndex (Some n);
      OpenAIEmbedding (default "text-embedding-3-small" (getenv w "EMBEDDING_MODEL")) d
        (getenv w "OPENAI_API_KEY");
      SentenceSplitter 256 20;
      PineconeVectorStore (Some n);
      StorageContextFromDefaults;
      FromDocuments (read_documents w input_file)].

End Script.

End Ingest.

(** ** [app.py] *)

Module App.

(** The module-level names that the handlers read. [router_layer] tells
    whether the name is bound, which is what ['router_layer' in globals()]
    tests. *)
Record globals := Globals {
  pinecone_index_name : option string;
  openai_api_key : option string;
  embedding_model : string;
  embedding_dim : Z;
  router_layer : bool
}.

(** The agent built at session start. *)
Record Agent := ReActAgent {
  tool_name : string;
  similarity_top_k : Z;
  llm : string
}.

(** [cl.user_session] *)
Record session := Session {
  author_name : option string;
  agent : option Agent
}.

Definition empty_session : session := Session None None.

Definition allowed_route_names : list string :=
  ["paul_allen_questions"; "greetings"; "farewells"; "gratitude"].

Definition welcome_text : string :=
  "Hello! Please ask me anything about Microsoft's co-founder - Paul Allen, his life, career, or interests. I am here to help!".

Definition refusal_text : string :=
  "I apologize, but I am an AI agent designed specifically to answer questions about Paul Allen. I cannot assist with other topics.".

Definition agent_unavailable_text : string :=
  "Sorry, the agent is not available.".

Definition router_missing_text : string :=
  "Semantic Router is not initialized. Please check server logs.".

Definition tool_description : string :=
  "Provides information about the life, career, and interests of Paul Allen. " +:+
  "Use this tool for any questions related to Paul Allen, Microsoft, his philanthropy, " +:+
  "yachts, investments, or personal history.".

Section Handlers.

Variable w : world.
Variable py_int : string → option Z.

Definition embedding_dim_message : string :=
  "EMBEDDING_DIM environment variable must be a valid integer. Defaulting to 1024.".

(** Lines 36-40: [int(os.getenv("EMBEDDING_DIM", 1024))] under
    [try]/[except (ValueError, TypeError)]; the default is the integer 1024,
    which [int] returns unchanged. *)
Definition load_embedding_dim {S} : M S Z :=
  try_except
    (match getenv w "EMBEDDING_DIM" with
     | Some v => int py_int v
     | None => ret 1024
     end)
    ValueError_or_TypeError
    (λ _, logging_error embedding_dim_message >> ret 1024).

(** Module initialisation: the statements of [app.py] that run at import. *)
Definition module_init : M unit globals :=
  let pinecone_index_name := getenv w "PINECONE_INDEX_NAME" in
  let openai_api_key := getenv w "OPENAI_API_KEY" in
  let embedding_model := default "text-embedding-3-small" (getenv w "EMBEDDING_MODEL") in
  let! embedding_dim := load_embedding_dim in
  if negb (truthy openai_api_key)
  then raise (ValueError "OPENAI_API_KEY not found in .env file.")
  else
  sdk w (OpenAIEmbedding embedding_model embedding_dim openai_api_key) >>
  let! router_layer :=
    try_except
      (sdk w (OpenAIEncoder embedding_model openai_api_key) >>
       sdk w (SemanticRouter Router.allowed_routes "merge-force-local") >>
       logging_info "Semantic Router layer initialized successfully." >>
       ret true)
      any_Exception
      (λ e, logging_error ("Error initializing Semantic Router: " +:+ str_exn e) >>
            ret false) in
  ret (Globals pinecone_index_name openai_api_key embedding_model embedding_dim router_layer).

Definition user_session_set_author_name (v : string) : M session unit :=
  let! s := get in put (Session (Some v) (agent s)).

Definition user_session_set_agent (a : Agent) : M session unit :=
  let! s := get in put (Session (author_name s) (Some a)).

Definition user_session_get_agent : M session (option Agent) :=
  let! s := get in ret (agent s).

Definition header_message (author_name : string) : message :=
  Message ""
    [Text "Paul Allen Archives" "💡 From Microsoft to Megayachts: Ask Anything" "inline"]
    (Some author_name).

Definition image_message (author_name : string) : message :=
  Message "" [Image "./public/Paul_Allen.jpg" "image1" "inline"] (Some author_name).

Definition welcome_message (author_name : string) : message :=
  Message welcome_text [] (Some author_name).

(** The body of the [try] block of [on_chat_start]. *)
Definition setup_agent (g : globals) : M session unit :=
  logging_info "Connecting to Pinecone and setting up the agent..." >>
  let pinecone_api_key := getenv w "PINECONE_API_KEY" in
  let pinecone_region := getenv w "PINECONE_REGION" in
  if negb (truthy pinecone_api_key) || negb (truthy pinecone_region)
  then raise (ValueError "PINECONE_API_KEY or PINECONE_ENVIRONMENT not found in .env file.")
  else
  sdk w (PineconeClient pinecone_api_key) >>
  sdk w (GetIndex (pinecone_index_name g)) >>
  sdk w (PineconeVectorStore (pinecone_index_name g)) >>
  sdk w FromVectorStore >>
  sdk w (AsQueryEngine true 3) >>
  sdk w (QueryEngineTool "paul_allen_knowledge_base" tool_description) >>
  sdk w (OpenAI "gpt-4o" (openai_api_key g)) >>
  sdk w (ReActFromTools true) >>
  user_session_set_agent (ReActAgent "paul_allen_knowledge_base" 3 "gpt-4o") >>
  logging_info "LlamaIndex agent setup complete.".

Definition setup_error_message (e : exn) : message :=
  Message ("Sorry, an error occurred during setup: " +:+ str_exn e) [] None.

(** The [try]/[except Exception] statement that ends [on_chat_start]. *)
Definition guarded_setup (g : globals) : M session unit :=
  try_except (setup_agent g) any_Exception
    (λ e, logging_error ("Error during chat start: " +:+ str_exn e) >>
          emit (Send (setup_error_message e))).

Definition on_chat_start (g : globals) : M session unit :=
  let author_name := "Paul Allen AI Agent" in
  user_session_set_author_name author_name >>
  emit (Send (header_message author_name)) >>
  emit (Send (image_message author_name)) >>
  emit (Send (welcome_message author_name)) >>
  guarded_setup g.

(** The loop [for token in response_stream.response_gen] over the fragments
    the generator yields, ending with the exception that stops it, if any. *)
Fixpoint stream_tokens (tokens : list string) (failure : option string)
    (response_text : string) : M session string :=
  match tokens with
  | [] =>
      match failure with
      | Some msg => raise (SdkError msg)
      | None => ret response_text
      end
  | token :: rest =>
      let response_text := response_text +:+ token in
      emit (StreamToken token) >>
      stream_tokens rest failure response_text
  end.

Definition on_message (g : globals) (message_content : string) : M session unit :=
  if negb (router_layer g)
  then emit (Send (Message router_missing_text [] None))
  else
  sdk w (RouterCall message_content) >>
  let route_result_name := route_of w message_content in
  if negb (py_in route_result_name allowed_route_names)
  then emit (Send (Message refusal_text [] None))
  else
  let! agent := user_session_get_agent in
  match agent with
  | None => emit (Send (Message agent_unavailable_text [] None))
  | Some _ =>
      sdk w (StreamChat message_content) >>
      let response_stream := agent_stream w message_content in
      let msg := Message "" [] None in
      emit (Send msg) >>
      let! response_text := stream_tokens response_stream.1 response_stream.2 "" in
      let msg := Message response_text (elements msg) (author msg) in
      emit (Update msg)
  end.

End Handlers.

(** The three messages that open a session. *)
Definition intro_messages : list message :=
  [header_message "Paul Allen AI Agent";
   image_message "Paul Allen AI Agent";
   welcome_message "Paul Allen AI Agent"].

End App.

(** ** The [int] builtin on ASCII text

    An executable instance of the [py_int] parameter for text made of ASCII
    characters: surrounding whitespace is dropped, one sign is allowed, and
    single underscores may separate digits. *)

Definition is_space (c : ascii) : bool :=
  let n := Z.of_N (N_of_ascii c) in
  ((9 <=? n) && (n <=? 13)) || ((28 <=? n) && (n <=? 32)).

Definition digit_of (c : ascii) : option Z :=
  let n := Z.of_N (N_of_ascii c) in
  if (48 <=? n) && (n <=? 57) then Some (n - 48) else None.

Fixpoint lstrip (l : list ascii) : list ascii :=
  match l with
  | c :: l' => if is_space c then lstrip l' else l
  | [] => []
  end.

Definition strip (l : list ascii) : list ascii :=
  rev (lstrip (rev (lstrip l))).

Fixpoint digits (l : list ascii) (acc : Z) (after_digit : bool) : option Z :=
  match l with
  | [] => if after_digit then Some acc else None
  | c :: l' =>
      match digit_of c with
      | Some d => digits l' (10 * acc + d) true
      | None =>
          if Ascii.eqb c "_"%char && after_digit
          then digits l' acc false
          else None
      end
  end.

Definition ascii_int (x : string) : option Z :=
  match strip (list_ascii_of_string x) with
  | c :: l =>
      if Ascii.eqb c "-"%char then Z.opp <$> digits l 0 false
      else if Ascii.eqb c "+"%char then digits l 0 false
      else digits (c :: l) 0 false
  | [] => None
  end.

(** ** Sample worlds *)

Definition env_of (bindings : list (string * string)) (v : string) : option string :=
  (list_to_map bindings : gmap string string) !! v.

Definition no_fault (c : call) : option string := None.

Definition sample_nodes (run : string) (documents : list string) : list node :=
  [Node (run +:+ "-0") "Paul Allen co-founded Microsoft.";
   Node (run +:+ "-1") "He owned the yacht Octopus."].

Definition sample_route (text : string) : option string :=
  if String.eqb text "who is paul allen?" then Some "paul_allen_questions"
  else if String.eqb text "hello" then Some "greetings"
  else None.

Definition mk_world (env : list (string * string)) (run : string)
    (stream : list string * option string) : world :=
  World (env_of env) (λ p, String.eqb p Ingest.default_input_file) no_fault
    (λ _, ["Paul Allen co-founded Microsoft. He owned the yacht Octopus."])
    (sample_nodes run) sample_route (λ _, stream).

Definition full_env : list (string * string) :=
  [("PINECONE_INDEX_NAME", "paul-allen"); ("PINECONE_API_KEY", "pk");
   ("PINECONE_REGION", "us-east-1"); ("PINECONE_CLOUD", "aws");
   ("OPENAI_API_KEY", "sk")].

(** Pinecone rejects the creation of a serverless index without a region. *)
Definition region_required (c : call) : option string :=
  match c with
  | CreateIndex _ _ _ _ None => Some "region is required"
  | _ => None
  end.

(** Every required variable is set except [PINECONE_REGION]. *)
Definition w_no_region : world :=
  World
    (env_of [("PINECONE_INDEX_NAME", "paul-allen"); ("PINECONE_API_KEY", "pk");
             ("PINECONE_CLOUD", "aws"); ("OPENAI_API_KEY", "sk")])
    (λ p, String.eqb p Ingest.default_input_file) region_required
    (λ _, ["Paul Allen co-founded Microsoft. He owned the yacht Octopus."])
    (sample_nodes "run") sample_route (λ _, ([], None)).

(** Only the index name is configured. *)
Definition w_only_index_name : world :=
  mk_world [("PINECONE_INDEX_NAME", "paul-allen")] "run" ([], None).

(** [EMBEDDING_DIM] is set to text that is not an integer. *)
Definition w_bad_dim : world :=
  mk_world (("EMBEDDING_DIM", "large") :: full_env) "run" ([], None).

(** Two runs of the ingestion script on the same file; node ids differ. *)
Definition w_first_run : world := mk_world full_env "first" ([], None).
Definition w_second_run : world := mk_world full_env "second" ([], None).

Definition first_run : outcome unit * gmap string Ingest.index_info * list event :=
  Ingest.main w_first_run ascii_int None ∅.

Definition second_run : outcome unit * gmap string Ingest.index_info * list event :=
  Ingest.main w_second_run ascii_int None (state_of first_run).

(** A fully configured world whose agent answers in three fragments. *)
Definition w_answers : world :=
  mk_world full_env "run" (["Paul Allen "; "co-founded "; "Microsoft."], None).

(** The language model connection drops after two fragments. *)
Definition w_stream_drops : world :=
  mk_world full_env "run"
    (["Paul Allen "; "co-founded "], Some "connection reset by peer").

Definition sample_globals : App.globals :=
  App.Globals (Some "paul-allen") (Some "sk") "text-embedding-3-small" 1024 true.

Definition sample_agent : App.Agent :=
  App.ReActAgent "paul_allen_knowledge_base" 3 "gpt-4o".

(** ** Notions used to state further properties *)

(** A result whose trace is preceded by the events [es]. *)
Definition prepend {S A} (es : list event) (r : outcome A * S * list event)
    : outcome A * S * list event :=
  (outcome_of r, state_of r, es ++ trace_of r).

(** The event does not configure an embedding model or an encoder with a
    model name other than [model]. *)
Definition uses_model (model : string) (e : event) : Prop :=
  match e with
  | Sdk (OpenAIEmbedding m _ _) | Sdk (OpenAIEncoder m _) => m = model
  | _ => True
  end.

(** The embedding model both scripts configure. *)
Definition configured_model (w : world) : string :=
  default "text-embedding-3-small" (getenv w "EMBEDDING_MODEL").

(** The dimension [App.load_embedding_dim] produces. *)
Definition app_effective_dim (w : world) (py_int : string → option Z) : Z :=
  match getenv w "EMBEDDING_DIM" with
  | Some v => default 1024 (py_int v)
  | None => 1024
  end.

(** The SDK calls of [App.setup_agent], in the order the code makes them. *)
Definition setup_calls (w : world) (g : App.globals) : list call :=
  [PineconeClient (getenv w "PINECONE_API_KEY");
   GetIndex (App.pinecone_index_name g);
   PineconeVectorStore (App.pinecone_index_name g);
   FromVectorStore;
   AsQueryEngine true 3;
   QueryEngineTool "paul_allen_knowledge_base" App.tool_description;
   OpenAI "gpt-4o" (App.openai_api_key g);
   ReActFromTools true].

(** The agent [App.setup_agent] stores in the session. *)
Definition built_agent : App.Agent :=
  App.ReActAgent "paul_allen_knowledge_base" 3 "gpt-4o".

(** Both Pinecone settings that session start checks are present and no
    call of the agent setup raises. *)
Definition setup_can_succeed (w : world) (g : App.globals) : Prop :=
  truthy (getenv w "PINECONE_API_KEY") = true
  ∧ truthy (getenv w "PINECONE_REGION") = true
  ∧ Forall (λ c, sdk_fault w c = None) (setup_calls w g).

(** Further sample worlds. *)

Definition world_with_faults (faults : call → option string)
    (stream : list string * option string) : world :=
  World (env_of full_env) (λ p, String.eqb p Ingest.default_input_file) faults
    (λ _, ["Paul Allen co-founded Microsoft. He owned the yacht Octopus."])
    (sample_nodes "run") sample_route (λ _, stream).

(** Pinecone is unreachable when the index is to be created. *)
Definition w_create_fails : world :=
  world_with_faults
    (λ c, match c with CreateIndex _ _ _ _ _ => Some "503 Service Unavailable" | _ => None end)
    ([], None).

(** The input file cannot be read. *)
Definition w_load_fails : world :=
  world_with_faults
    (λ c, match c with LoadData _ => Some "Permission denied" | _ => None end)
    ([], None).

(** The semantic router cannot be built at import. *)
Definition w_router_down : world :=
  world_with_faults
    (λ c, match c with SemanticRouter _ _ => Some "401 Unauthorized" | _ => None end)
    ([], None).

(** The router call raises. *)
Definition w_router_call_fails : world :=
  world_with_faults
    (λ c, match c with RouterCall _ => Some "timeout" | _ => None end)
    ([], None).

(** [pc.Index] raises at session start. *)
Definition w_index_missing : world :=
  world_with_faults
    (λ c, match c with GetIndex _ => Some "NOT_FOUND" | _ => None end)
    ([], None).

(** [EMBEDDING_DIM] is set to a valid integer. *)
Definition w_dim_512 : world :=
  mk_world (("EMBEDDING_DIM", "512") :: full_env) "run" ([], None).

(** A project that already holds the configured index, with other content,
    and an unrelated index. *)
Definition old_store : gmap string Ingest.index_info :=
  <["paul-allen" := Ingest.IndexInfo 1536 "cosine" (Some "aws") (Some "us-east-1")
                      (<["stale" := "old text"]> ∅)]>
  (<["other" := Ingest.IndexInfo 8 "dotproduct" (Some "gcp") (Some "europe-west4")
                  (<["k" := "v"]> ∅)]> ∅).

(** ** Running computations *)

Create HintDb run discriminated.
#[global] Hint Unfold bind ret raise sys_exit emit get put try_except sdk int
  logging_info logging_warning logging_error any_Exception
  outcome_of state_of trace_of : run.
#[global] Hint Unfold App.user_session_get_agent App.user_session_set_agent
  App.user_session_set_author_name : run.

(** Unfold the monad and decide every SDK fault that the goal still asks
    about. *)
Ltac run := autounfold with run; simpl.

Ltac fault_cases :=
  repeat match goal with
  | |- context [sdk_fault ?w ?c] =>
      let E := fresh "Hfault" in destruct (sdk_fault w c) eqn:E; simpl
  end.

Lemma bind_returned {S A B} (m : M S A) (k : A → M S B) s a s1 t1 :
  m s = (Returned a, s1, t1) →
  bind m k s = (outcome_of (k a s1), state_of (k a s1), t1 ++ trace_of (k a s1)).
Proof.
  intros E. unfold bind. rewrite E. now destruct (k a s1) as [[o s2] t2].
Qed.

Lemma sdk_calls_app (t1 t2 : list event) :
  sdk_calls (t1 ++ t2) = sdk_calls t1 ++ sdk_calls t2.
Proof. apply omap_app. Qed.

(** ** Text *)

Lemma append_cons (c : ascii) (x y : string) :
  String c x +:+ y = String c (x +:+ y).
Proof. reflexivity. Qed.

Lemma append_nil_r (x : string) : x +:+ "" = x.
Proof.
  induction x as [|c x IH]; [reflexivity | now rewrite append_cons, IH].
Qed.

Lemma append_assoc (x y z : string) : (x +:+ y) +:+ z = x +:+ (y +:+ z).
Proof.
  induction x as [|c x IH]; [reflexivity | now rewrite !append_cons, IH].
Qed.

Lemma concat_cons (x : string) (xs : list string) :
  String.concat "" (x :: xs) = x +:+ String.concat "" xs.
Proof. destruct xs; simpl; [now rewrite append_nil_r | reflexivity]. Qed.

Lemma py_in_spec (x : option string) (names : list string) :
  py_in x names = true ↔ ∃ n, x = Some n ∧ In n names.
Proof.
  destruct x as [n|]; simpl.
  - rewrite bool_decide_eq_true, list_elem_of_In. split.
    + intros H. exists n. auto.
    + intros (m & [= <-] & H). exact H.
  - split; [discriminate | intros (m & [=] & _)].
Qed.

(** ** The message handler *)

Section OnMessage.

Variable w : world.
Variable g : App.globals.
Variable text : string.

Hypothesis router_bound : App.router_layer g = true.
Hypothesis router_answers : sdk_fault w (RouterCall text) = None.

(** What the streaming loop does when the generator ends normally. *)
Lemma stream_tokens_finished (tokens : list string) (acc : string) (s : App.session) :
  App.stream_tokens tokens None acc s =
  (Returned (acc +:+ String.concat "" tokens), s, StreamToken <$> tokens).
Proof.
  revert acc. induction tokens as [|tok rest IH]; intros acc.
  - simpl. unfold ret. now rewrite append_nil_r.
  - rewrite concat_cons. cbn [App.stream_tokens]. unfold bind at 1, emit.
    rewrite IH. simpl. now rewrite append_assoc.
Qed.

(** What it does when the generator raises after some fragments. *)
Lemma stream_tokens_failed (tokens : list string) (msg acc : string) (s : App.session) :
  App.stream_tokens tokens (Some msg) acc s =
  (Raised (SdkError msg), s, StreamToken <$> tokens).
Proof.
  revert acc. induction tokens as [|tok rest IH]; intros acc.
  - reflexivity.
  - cbn [App.stream_tokens]. unfold bind at 1, emit. now rewrite IH.
Qed.

Lemma on_message_rejected (s : App.session) :
  py_in (route_of w text) App.allowed_route_names = false →
  App.on_message w g text s =
  (Returned tt, s, [Sdk (RouterCall text); Send (Message App.refusal_text [] None)]).
Proof.
  intros Hroute. unfold App.on_message.
  rewrite router_bound, Hroute. run. now rewrite router_answers.
Qed.

Lemma on_message_no_agent (s : App.session) :
  py_in (route_of w text) App.allowed_route_names = true →
  App.agent s = None →
  App.on_message w g text s =
  (Returned tt, s,
   [Sdk (RouterCall text); Send (Message App.agent_unavailable_text [] None)]).
Proof.
  intros Hroute Hagent. unfold App.on_message.
  rewrite router_bound, Hroute. run. rewrite router_answers. simpl.
  now rewrite Hagent.
Qed.

Lemma on_message_streams (s : App.session) (a : App.Agent)
    (tokens : list string) (failure : option string) :
  py_in (route_of w text) App.allowed_route_names = true →
  App.agent s = Some a →
  sdk_fault w (StreamChat text) = None →
  agent_stream w text = (tokens, failure) →
  App.on_message w g text s =
  match failure with
  | None =>
      (Returned tt, s,
       [Sdk (RouterCall text); Sdk (StreamChat text); Send (Message "" [] None)]
       ++ (StreamToken <$> tokens)
       ++ [Update (Message (String.concat "" tokens) [] None)])
  | Some msg =>
      (Raised (SdkError msg), s,
       [Sdk (RouterCall text); Sdk (StreamChat text); Send (Message "" [] None)]
       ++ (StreamToken <$> tokens))
  end.
Proof.
  intros Hroute Hagent Hchat Hstream. unfold App.on_message.
  rewrite router_bound, Hroute. run. rewrite router_answers. simpl.
  rewrite Hagent, Hchat, Hstream. simpl. destruct failure as [msg|].
  - rewrite stream_tokens_failed. reflexivity.
  - rewrite stream_tokens_finished. reflexivity.
Qed.

End OnMessage.

(** ** Session start *)

Section OnChatStart.

Variable w : world.
Variable g : App.globals.

Local Abbreviation guarded_setup := (App.guarded_setup w g).

Lemma on_chat_start_run (s : App.session) :
  let r := guarded_setup (App.Session (Some "Paul Allen AI Agent") (App.agent s)) in
  App.on_chat_start w g s =
  (outcome_of r, state_of r, (Send <$> App.intro_messages) ++ trace_of r).
Proof.
  intros r. subst r. unfold App.on_chat_start.
  run. now destruct (guarded_setup _) as [[o s'] t].
Qed.

(** The guarded setup never lets an exception escape: it either installs
    the agent and sends nothing, or leaves the agent as it was and sends the
    setup-error message built from the exception. *)
Lemma guarded_setup_handled (s : App.session) :
  let r := guarded_setup s in
  outcome_of r = Returned tt ∧
  ((App.agent (state_of r) = Some (App.ReActAgent "paul_allen_knowledge_base" 3 "gpt-4o")
    ∧ sent (trace_of r) = [])
   ∨ (∃ e, state_of r = s
           ∧ sent (trace_of r) = [App.setup_error_message e]
           ∧ last (trace_of r) = Some (Send (App.setup_error_message e)))).
Proof.
  unfold App.guarded_setup, App.setup_agent. run.
  destruct (negb (truthy _) || negb (truthy _)); simpl.
  - split; [reflexivity | right; eexists; repeat split; reflexivity].
  - fault_cases;
      (split; [reflexivity | first
         [ right; eexists; repeat split; reflexivity
         | left; split; reflexivity ] ]).
Qed.

(** When the Pinecone key or region is missing, setup stops before it
    makes any SDK call. *)
Lemma guarded_setup_unconfigured (s : App.session) :
  truthy (getenv w "PINECONE_API_KEY") = false
  ∨ truthy (getenv w "PINECONE_REGION") = false →
  guarded_setup s =
  (Returned tt, s,
   [Log INFO "Connecting to Pinecone and setting up the agent...";
    Log ERROR "Error during chat start: PINECONE_API_KEY or PINECONE_ENVIRONMENT not found in .env file.";
    Send (App.setup_error_message
       (ValueError "PINECONE_API_KEY or PINECONE_ENVIRONMENT not found in .env file."))]).
Proof.
  intros H. unfold App.guarded_setup, App.setup_agent. run.
  assert (negb (truthy (getenv w "PINECONE_API_KEY"))
          || negb (truthy (getenv w "PINECONE_REGION")) = true) as ->.
  { destruct H as [-> | ->]; simpl; [reflexivity | apply orb_true_r]. }
  reflexivity.
Qed.

End OnChatStart.


(** ** The ingestion script *)

(** Inversion of computations that returned. *)

Lemma bind_Returned_inv {S A B} (m : M S A) (k : A → M S B) s b s' t :
  bind m k s = (Returned b, s', t) →
  ∃ a s1 t1 t2,
    m s = (Returned a, s1, t1) ∧ k a s1 = (Returned b, s', t2) ∧ t = t1 ++ t2.
Proof.
  unfold bind. destruct (m s) as [[[a|e|c] s1] t1]; try discriminate.
  destruct (k a s1) as [[o s2] t2] eqn:E. intros [= -> -> <-].
  exists a, s1, t1, t2. auto.
Qed.

Lemma sdk_Returned_inv {S} (w : world) (c : call) (s s' : S) u t :
  sdk w c s = (Returned u, s', t) →
  sdk_fault w c = None ∧ s' = s ∧ t = [Sdk c].
Proof.
  run. destruct (sdk_fault w c); simpl; [discriminate|].
  intros [= _ <- <-]. auto.
Qed.

Section IngestMain.

Variable w : world.
Variable py_int : string → option Z.

Lemma load_embedding_dim_run {S} (s : S) :
  ∃ t, Ingest.load_embedding_dim w py_int s
       = (Returned (Ingest.effective_dim w py_int), s, t)
       ∧ sdk_calls t = [].
Proof.
  unfold Ingest.load_embedding_dim, Ingest.effective_dim. run.
  destruct (py_int _); simpl; eexists; split; reflexivity.
Qed.

Lemma list_indexes_names_inv (s s' : Ingest.store) names t :
  Ingest.list_indexes_names w s = (Returned names, s', t) →
  names = (map_to_list s).*1 ∧ s' = s ∧ t = [Sdk ListIndexes].
Proof.
  unfold Ingest.list_indexes_names. run.
  destruct (sdk_fault w ListIndexes); simpl; [discriminate|].
  intros [= <- <- <-]. auto.
Qed.

Lemma delete_index_inv (n : string) (s s' : Ingest.store) u t :
  Ingest.delete_index w (Some n) s = (Returned u, s', t) →
  is_Some (s !! n) ∧ s' = delete n s ∧ t = [Sdk (DeleteIndex (Some n))].
Proof.
  unfold Ingest.delete_index. run.
  destruct (sdk_fault w _); simpl; [discriminate|].
  destruct (s !! n) eqn:E; simpl; [|discriminate].
  intros [= _ <- <-]. eauto.
Qed.

Lemma create_index_inv (n : string) d metric cloud region (s s' : Ingest.store) u t :
  Ingest.create_index w (Some n) d metric cloud region s = (Returned u, s', t) →
  s !! n = None
  ∧ s' = <[n := Ingest.IndexInfo d metric cloud region ∅]> s
  ∧ t = [Sdk (CreateIndex (Some n) d metric cloud region)].
Proof.
  unfold Ingest.create_index. run.
  destruct (sdk_fault w _); simpl; [discriminate|].
  destruct (s !! n) eqn:E; simpl; [discriminate|].
  intros [= _ <- <-]. eauto.
Qed.

Lemma Index_inv (n : string) (s s' : Ingest.store) h t :
  Ingest.Index w (Some n) s = (Returned h, s', t) →
  h = n ∧ is_Some (s !! n) ∧ s' = s ∧ t = [Sdk (GetIndex (Some n))].
Proof.
  unfold Ingest.Index. run.
  destruct (sdk_fault w _); simpl; [discriminate|].
  destruct (s !! n) eqn:E; simpl; [|discriminate].
  intros [= <- <- <-]. eauto.
Qed.

Lemma from_documents_inv docs (n : string) (s s' : Ingest.store) u t :
  Ingest.from_documents w docs n s = (Returned u, s', t) →
  ∃ ix, s !! n = Some ix
    ∧ s' = <[n := Ingest.IndexInfo (Ingest.ix_dimension ix) (Ingest.ix_metric ix)
                     (Ingest.ix_cloud ix) (Ingest.ix_region ix)
                     (Ingest.upsert_all (split_nodes w docs) (Ingest.ix_records ix))]> s
    ∧ t = [Sdk (FromDocuments docs)].
Proof.
  unfold Ingest.from_documents. run.
  destruct (sdk_fault w _); simpl; [discriminate|].
  destruct (s !! n) eqn:E; simpl; [|discriminate].
  intros [= _ <- <-]. eauto.
Qed.

Ltac minv :=
  repeat (cbv beta zeta in *; match goal with
  | H : bind _ _ _ = (Returned _, _, _) |- _ =>
      let H1 := fresh "Hstep" in
      apply bind_Returned_inv in H; destruct H as (? & ? & ? & ? & H1 & H & ->)
  | H : sdk _ _ _ = (Returned _, _, _) |- _ =>
      apply sdk_Returned_inv in H; destruct H as (? & -> & ->)
  | H : logging_info _ _ = _ |- _ => inversion H; subst; clear H
  | H : logging_warning _ _ = _ |- _ => inversion H; subst; clear H
  | H : logging_error _ _ = _ |- _ => inversion H; subst; clear H
  | H : ret _ _ = _ |- _ => inversion H; subst; clear H
  | H : raise _ _ = (Returned _, _, _) |- _ => discriminate H
  | H : sys_exit _ _ = (Returned _, _, _) |- _ => discriminate H
  | H : Ingest.list_indexes_names _ _ = _ |- _ =>
      apply list_indexes_names_inv in H; destruct H as (-> & -> & ->)
  | H : Ingest.delete_index _ (Some _) _ = _ |- _ =>
      apply delete_index_inv in H; destruct H as (? & -> & ->)
  | H : Ingest.create_index _ (Some _) _ _ _ _ _ = _ |- _ =>
      apply create_index_inv in H; destruct H as (? & -> & ->)
  | H : Ingest.Index _ (Some _) _ = _ |- _ =>
      apply Index_inv in H; destruct H as (-> & ? & -> & ->)
  | H : Ingest.from_documents _ _ _ _ = _ |- _ =>
      apply from_documents_inv in H; destruct H as (? & ? & -> & ->)
  | H : (if ?b then _ else _) _ = (Returned _, _, _) |- _ =>
      let E := fresh "Hcond" in destruct b eqn:E
  end).

Lemma main_success arg s s' t :
  Ingest.main w py_int arg s = (Returned tt, s', t) →
  ∃ n, getenv w "PINECONE_INDEX_NAME" = Some n
    ∧ s' = <[n := Ingest.IndexInfo (Ingest.effective_dim w py_int) "cosine"
                    (getenv w "PINECONE_CLOUD") (getenv w "PINECONE_REGION")
                    (Ingest.upsert_all
                       (split_nodes w (read_documents w (default Ingest.default_input_file arg)))
                       ∅)]> s
    ∧ sdk_calls t = Ingest.success_calls w py_int arg n (bool_decide (is_Some (s !! n))).
Proof.
  unfold Ingest.main. intros H.
  destruct (load_embedding_dim_run s) as (t0 & E0 & Ht0).
  apply bind_Returned_inv in H. destruct H as (d & s1 & t1 & t2 & H1 & H & ->).
  rewrite E0 in H1. injection H1 as <- <- <-.
  destruct (getenv w "PINECONE_INDEX_NAME") as [n|] eqn:Hname.
  2:{ simpl in H. discriminate. }
  exists n. split; [reflexivity|].
  minv.
  - rewrite bool_decide_eq_true_2 by assumption.
    rewrite lookup_insert_eq in *. simplify_eq. simpl.
    rewrite insert_insert_eq, insert_delete_eq. split; [reflexivity|].
    rewrite sdk_calls_app, Ht0. reflexivity.
  - rewrite bool_decide_eq_false_2
      by (intros [ix Hix]; rewrite Hix in *; discriminate).
    rewrite lookup_insert_eq in *. simplify_eq. simpl.
    rewrite insert_insert_eq. split; [reflexivity|].
    rewrite sdk_calls_app, Ht0. reflexivity.
Qed.

(** A run of [main] that cannot pass the configuration check. *)
Lemma main_unconfigured arg s :
  forallb truthy [getenv w "PINECONE_INDEX_NAME"; getenv w "PINECONE_API_KEY";
                  getenv w "OPENAI_API_KEY"] = false →
  let r := Ingest.main w py_int arg s in
  outcome_of r = Raised (ValueError "PINECONE_INDEX_NAME, PINECONE_API_KEY, or OPENAI_API_KEY is not set in the .env file.")
  ∧ state_of r = s
  ∧ sdk_calls (trace_of r) = [].
Proof.
  intros Hcfg r. subst r. unfold Ingest.main.
  destruct (load_embedding_dim_run s) as (t0 & E0 & Ht0).
  rewrite (bind_returned _ _ _ _ _ _ E0). rewrite Hcfg. simpl.
  rewrite app_nil_r. auto.
Qed.

(** A run of [main] on a path that does not exist. *)
Lemma main_missing_file arg s :
  path_exists w (default Ingest.default_input_file arg) = false →
  let r := Ingest.main w py_int arg s in
  (outcome_of r = Exited 1 ∨ ∃ e, outcome_of r = Raised e)
  ∧ state_of r = s
  ∧ sdk_calls (trace_of r) = [].
Proof.
  intros Hfile r. subst r.
  destruct (forallb truthy [getenv w "PINECONE_INDEX_NAME"; getenv w "PINECONE_API_KEY";
                            getenv w "OPENAI_API_KEY"]) eqn:Hcfg.
  - unfold Ingest.main.
    destruct (load_embedding_dim_run s) as (t0 & E0 & Ht0).
    rewrite (bind_returned _ _ _ _ _ _ E0). rewrite Hcfg, Hfile. run.
    rewrite sdk_calls_app, Ht0. auto.
  - destruct (main_unconfigured arg s Hcfg) as (Ho & Hs & Ht).
    split; [right; eauto | auto].
Qed.

End IngestMain.

(** Records written into an empty index: one per node when the ids are
    distinct. *)
Lemma upsert_all_size (ns : list node) (recs : gmap string string) :
  NoDup (node_id <$> ns) →
  (∀ n, n ∈ ns → recs !! node_id n = None) →
  size (Ingest.upsert_all ns recs) = (length ns + size recs)%nat.
Proof.
  unfold Ingest.upsert_all. revert recs.
  induction ns as [|n ns IH]; intros recs Hnd Hfresh; [reflexivity|].
  rewrite fmap_cons in Hnd. apply NoDup_cons in Hnd as [Hn Hnd].
  cbn [foldl]. rewrite IH.
  - unfold Ingest.upsert. rewrite map_size_insert_None.
    + simpl. lia.
    + apply Hfresh. left.
  - exact Hnd.
  - intros m Hm. unfold Ingest.upsert. rewrite lookup_insert_ne.
    + apply Hfresh. now right.
    + intros Heq. apply Hn. rewrite Heq. now apply list_elem_of_fmap_2.
Qed.

Lemma upsert_all_empty_size (ns : list node) :
  NoDup (node_id <$> ns) → size (Ingest.upsert_all ns ∅) = length ns.
Proof.
  intros Hnd. rewrite upsert_all_size; [|exact Hnd|].
  - rewrite map_size_empty. lia.
  - intros n _. apply lookup_empty.
Qed.

(** ** Properties of every event of a trace *)

Section TraceInvariant.

Variable P : event → Prop.

Lemma trace_bind {S A B} (m : M S A) (k : A → M S B) (s : S) :
  Forall P (trace_of (m s)) →
  (∀ a s1 t1, m s = (Returned a, s1, t1) → Forall P (trace_of (k a s1))) →
  Forall P (trace_of (bind m k s)).
Proof.
  unfold bind, trace_of. destruct (m s) as [[[a|e|c] s1] t1]; simpl; auto.
  intros H1 H2. specialize (H2 a s1 t1 eq_refl).
  destruct (k a s1) as [[o s2] t2]. simpl in *. now apply Forall_app.
Qed.

Lemma trace_try_except {S A} (body : M S A) catches (handler : exn → M S A) (s : S) :
  Forall P (trace_of (body s)) →
  (∀ e s1, Forall P (trace_of (handler e s1))) →
  Forall P (trace_of (try_except body catches handler s)).
Proof.
  unfold try_except, trace_of. destruct (body s) as [[[a|e|c] s1] t1]; simpl; auto.
  intros H1 H2. destruct (catches e); simpl; auto.
  specialize (H2 e s1). destruct (handler e s1) as [[o s2] t2]. simpl in *.
  now apply Forall_app.
Qed.

Lemma trace_emit {S} (e : event) (s : S) : P e → Forall P (trace_of (emit e s)).
Proof. intros H. repeat constructor. exact H. Qed.

Lemma trace_sdk {S} (w : world) (c : call) (s : S) :
  P (Sdk c) → Forall P (trace_of (sdk w c s)).
Proof.
  intros H. run. destruct (sdk_fault w c); repeat constructor; exact H.
Qed.

End TraceInvariant.

(** Walk through a computation, leaving one goal per event it can emit. *)
Ltac trace_walk :=
  repeat first
    [ apply trace_bind; [| intros ? ? ? _]
    | apply trace_try_except; [| intros ? ?]
    | apply trace_sdk
    | apply trace_emit
    | apply Forall_nil_2
    | match goal with
      | |- Forall _ (trace_of ((if ?b then _ else _) _)) => destruct b
      | |- Forall _ (trace_of ((match ?x with _ => _ end) _)) => destruct x
      end ].

Section EmbeddingDim.

Variable w : world.
Variable py_int : string → option Z.

Hypothesis int_1024 : py_int "1024" = Some 1024.
Hypothesis unset_or_malformed :
  getenv w "EMBEDDING_DIM" = None
  ∨ ∃ v, getenv w "EMBEDDING_DIM" = Some v ∧ py_int v = None.

Lemma app_load_embedding_dim_run {S} (s : S) :
  App.load_embedding_dim w py_int s =
  (Returned 1024, s,
   match getenv w "EMBEDDING_DIM" with
   | Some _ => [Log ERROR App.embedding_dim_message]
   | None => []
   end).
Proof.
  unfold App.load_embedding_dim. run.
  destruct unset_or_malformed as [-> | (v & -> & Hv)]; simpl.
  - reflexivity.
  - now rewrite Hv.
Qed.

Lemma ingest_load_embedding_dim_run {S} (s : S) :
  Ingest.load_embedding_dim w py_int s =
  (Returned 1024, s,
   match getenv w "EMBEDDING_DIM" with
   | Some _ => [Log ERROR Ingest.embedding_dim_message]
   | None => []
   end).
Proof.
  unfold Ingest.load_embedding_dim. run.
  destruct unset_or_malformed as [-> | (v & -> & Hv)]; simpl.
  - now rewrite int_1024.
  - now rewrite Hv.
Qed.

Lemma main_uses_1024 arg s :
  Forall (uses_dimension 1024) (trace_of (Ingest.main w py_int arg s)).
Proof.
  unfold Ingest.main. apply trace_bind.
  - rewrite ingest_load_embedding_dim_run.
    destruct (getenv w "EMBEDDING_DIM"); repeat constructor.
  - intros d s1 t1. rewrite ingest_load_embedding_dim_run. intros [= <- <- <-].
    unfold Ingest.from_documents, Ingest.Index, Ingest.create_index,
      Ingest.delete_index, Ingest.list_indexes_names,
      logging_info, logging_warning, logging_error.
    trace_walk; simpl; auto.
Qed.

Lemma module_init_uses_1024 :
  Forall (uses_dimension 1024) (trace_of (App.module_init w py_int tt)).
Proof.
  unfold App.module_init. apply trace_bind.
  - rewrite app_load_embedding_dim_run.
    destruct (getenv w "EMBEDDING_DIM"); repeat constructor.
  - intros d s1 t1. rewrite app_load_embedding_dim_run. intros [= <- <- <-].
    unfold logging_info, logging_error.
    trace_walk; simpl; auto.
Qed.

Lemma module_init_globals_1024 (g : App.globals) :
  outcome_of (App.module_init w py_int tt) = Returned g →
  App.embedding_dim g = 1024.
Proof.
  unfold App.module_init.
  rewrite (bind_returned _ _ _ _ _ _ (app_load_embedding_dim_run tt)).
  destruct (negb (truthy _)); [discriminate|].
  run. fault_cases; intros [= <-]; reflexivity.
Qed.

End EmbeddingDim.

(** Module initialisation of the chat application without an OpenAI key. *)
Lemma module_init_unconfigured (w : world) (py_int : string → option Z) :
  truthy (getenv w "OPENAI_API_KEY") = false →
  let r := App.module_init w py_int tt in
  outcome_of r = Raised (ValueError "OPENAI_API_KEY not found in .env file.")
  ∧ sdk_calls (trace_of r) = [].
Proof.
  intros Hkey r. subst r. unfold App.module_init, App.load_embedding_dim.
  rewrite Hkey. run.
  destruct (getenv w "EMBEDDING_DIM") as [v|]; simpl; [|auto].
  destruct (py_int v); simpl; auto.
Qed.

(** * The claims *)

(** ** C1 *)

(** C1, as stated, fails: with every required variable set except
    [PINECONE_REGION], the ingestion script lists the indexes of the project
    and asks Pinecone to create one before anything stops it. *)
Lemma C1_counterexample :
  getenv w_no_region "PINECONE_REGION" = None
  ∧ let r := Ingest.main w_no_region ascii_int None ∅ in
    outcome_of r = Raised (SdkError "region is required")
    ∧ remote_calls (trace_of r)
      = [ListIndexes; CreateIndex (Some "paul-allen") 1024 "cosine" (Some "aws") None].
Proof. split; [reflexivity | split; vm_compute; reflexivity]. Qed.

(** C1 (amended): a missing (unset or empty) variable stops an entry point
    before its first SDK call where the code checks it.  The ingestion
    script checks [PINECONE_INDEX_NAME], [PINECONE_API_KEY] and
    [OPENAI_API_KEY] and raises [ValueError], leaving the remote store
    untouched; module initialisation of the chat application checks
    [OPENAI_API_KEY] and raises [ValueError]; session start checks
    [PINECONE_API_KEY] and [PINECONE_REGION], makes no SDK call, leaves the
    session without a new agent and ends with the setup-error message. *)
Theorem C1_checked_variables_stop_before_sdk_calls
    (w : world) (py_int : string → option Z) (v : string) :
  truthy (getenv w v) = false →
  (In v ["PINECONE_INDEX_NAME"; "PINECONE_API_KEY"; "OPENAI_API_KEY"] →
   ∀ arg s, let r := Ingest.main w py_int arg s in
     outcome_of r = Raised (ValueError "PINECONE_INDEX_NAME, PINECONE_API_KEY, or OPENAI_API_KEY is not set in the .env file.")
     ∧ state_of r = s
     ∧ sdk_calls (trace_of r) = [])
  ∧ (v = "OPENAI_API_KEY" →
     let r := App.module_init w py_int tt in
     outcome_of r = Raised (ValueError "OPENAI_API_KEY not found in .env file.")
     ∧ sdk_calls (trace_of r) = [])
  ∧ (In v ["PINECONE_API_KEY"; "PINECONE_REGION"] →
     ∀ g s, let r := App.on_chat_start w g s in
       outcome_of r = Returned tt
       ∧ App.agent (state_of r) = App.agent s
       ∧ sdk_calls (trace_of r) = []
       ∧ last (trace_of r)
         = Some (Send (App.setup_error_message
              (ValueError "PINECONE_API_KEY or PINECONE_ENVIRONMENT not found in .env file.")))).
Proof.
  intros Hv. split; [|split].
  - intros Hin arg s. apply main_unconfigured.
    simpl in Hin. destruct Hin as [<- | [<- | [<- | []]]]; simpl; rewrite Hv;
      simpl; rewrite ?andb_false_r; reflexivity.
  - intros ->. now apply module_init_unconfigured.
  - intros Hin g s r. subst r. rewrite on_chat_start_run.
    rewrite guarded_setup_unconfigured.
    + repeat split.
    + simpl in Hin. destruct Hin as [<- | [<- | []]]; auto.
Qed.

Lemma C1_checked_variables_witness :
  truthy (getenv w_only_index_name "PINECONE_API_KEY") = false
  ∧ outcome_of (Ingest.main w_only_index_name ascii_int None ∅)
    = Raised (ValueError "PINECONE_INDEX_NAME, PINECONE_API_KEY, or OPENAI_API_KEY is not set in the .env file.")
  ∧ sdk_calls (trace_of (App.on_chat_start w_only_index_name sample_globals
                           App.empty_session)) = [].
Proof.
  assert (truthy (getenv w_only_index_name "PINECONE_API_KEY") = false) as Hv
    by reflexivity.
  destruct (C1_checked_variables_stop_before_sdk_calls w_only_index_name
              ascii_int "PINECONE_API_KEY" Hv) as (Hingest & _ & Hstart).
  split; [exact Hv | split].
  - apply (Hingest ltac:(simpl; tauto) None ∅).
  - apply (Hstart ltac:(simpl; tauto) sample_globals App.empty_session).
Defined.

(** ** C2 *)

(** C2: an error raised while the answer is streamed is not caught by the
    message handler.  With an agent in the session and a generator that
    raises after two fragments, [on_message] ends with that exception: the
    two fragments were streamed, and no apology (nor any other message)
    follows the empty message that opened the stream. *)
Theorem C2_streaming_error_escapes_on_message :
  App.on_message w_stream_drops sample_globals "who is paul allen?"
    (App.Session (Some "Paul Allen AI Agent") (Some sample_agent))
  = (Raised (SdkError "connection reset by peer"),
     App.Session (Some "Paul Allen AI Agent") (Some sample_agent),
     [Sdk (RouterCall "who is paul allen?");
      Sdk (StreamChat "who is paul allen?");
      Send (Message "" [] None);
      StreamToken "Paul Allen ";
      StreamToken "co-founded "]).
Proof. vm_compute. reflexivity. Qed.

(** ** C3 *)

(** C3, as stated, fails: in a session without an agent, a message the
    router does not place in an allowed route gets the refusal, not the
    "agent not available" reply. *)
Lemma C3_counterexample :
  App.agent App.empty_session = None
  ∧ sent (trace_of (App.on_message w_answers sample_globals
                      "what's the weather in Paris?" App.empty_session))
    = [Message App.refusal_text [] None]
  ∧ Message App.refusal_text [] None ≠ Message App.agent_unavailable_text [] None.
Proof.
  split; [reflexivity | split].
  - vm_compute. reflexivity.
  - vm_compute. discriminate.
Qed.

(** C3 (amended): in a session whose agent is unset, every message that the
    router places in one of the four allowed routes gets exactly the fixed
    "agent not available" reply; the handler returns normally, leaves the
    session as it was and does not call the agent. *)
Theorem C3_unset_agent_allowed_message_unavailable
    (w : world) (g : App.globals) (text : string) (s : App.session) :
  App.router_layer g = true →
  sdk_fault w (RouterCall text) = None →
  (∃ n, route_of w text = Some n ∧ In n App.allowed_route_names) →
  App.agent s = None →
  App.on_message w g text s
  = (Returned tt, s,
     [Sdk (RouterCall text); Send (Message App.agent_unavailable_text [] None)]).
Proof.
  intros Hrouter Hanswer Hroute Hagent.
  apply on_message_no_agent; try assumption. now apply py_in_spec.
Qed.

Lemma C3_unset_agent_witness :
  App.on_message w_answers sample_globals "hello" App.empty_session
  = (Returned tt, App.empty_session,
     [Sdk (RouterCall "hello"); Send (Message "Sorry, the agent is not available." [] None)]).
Proof.
  apply (C3_unset_agent_allowed_message_unavailable w_answers sample_globals
           "hello" App.empty_session).
  - reflexivity.
  - reflexivity.
  - exists "greetings". split; [reflexivity | simpl; tauto].
  - reflexivity.
Defined.

(** ** C4 *)

(** C4: when the router answers with a name outside the four allowed ones,
    or with no match, the handler sends the fixed refusal and returns; the
    only SDK call of the turn is the router call, so the agent is not
    invoked. *)
Theorem C4_disallowed_route_refused
    (w : world) (g : App.globals) (text : string) (s : App.session) :
  App.router_layer g = true →
  sdk_fault w (RouterCall text) = None →
  ¬ (∃ n, route_of w text = Some n ∧ In n App.allowed_route_names) →
  App.on_message w g text s
  = (Returned tt, s,
     [Sdk (RouterCall text); Send (Message App.refusal_text [] None)]).
Proof.
  intros Hrouter Hanswer Hroute.
  apply on_message_rejected; try assumption.
  apply not_true_is_false. intros Hin. apply Hroute. now apply py_in_spec.
Qed.

Lemma C4_disallowed_route_witness :
  App.on_message w_answers sample_globals "what's the weather in Paris?"
    (App.Session (Some "Paul Allen AI Agent") (Some sample_agent))
  = (Returned tt, App.Session (Some "Paul Allen AI Agent") (Some sample_agent),
     [Sdk (RouterCall "what's the weather in Paris?");
      Send (Message App.refusal_text [] None)]).
Proof.
  apply (C4_disallowed_route_refused w_answers sample_globals).
  - reflexivity.
  - reflexivity.
  - intros (n & Hn & _). vm_compute in Hn. discriminate.
Defined.

(** ** C5 *)

(** C5: for an allowed query whose stream yields the fragments [tokens] and
    ends, the handler streams each fragment in order and then updates the
    message with content equal to their concatenation. *)
Theorem C5_final_content_is_concatenation
    (w : world) (g : App.globals) (text : string) (s : App.session)
    (a : App.Agent) (tokens : list string) :
  App.router_layer g = true →
  sdk_fault w (RouterCall text) = None →
  (∃ n, route_of w text = Some n ∧ In n App.allowed_route_names) →
  App.agent s = Some a →
  sdk_fault w (StreamChat text) = None →
  agent_stream w text = (tokens, None) →
  App.on_message w g text s
  = (Returned tt, s,
     [Sdk (RouterCall text); Sdk (StreamChat text); Send (Message "" [] None)]
     ++ (StreamToken <$> tokens)
     ++ [Update (Message (String.concat "" tokens) [] None)]).
Proof.
  intros Hrouter Hanswer Hroute Hagent Hchat Hstream.
  apply py_in_spec in Hroute.
  exact (on_message_streams w g text Hrouter Hanswer s a tokens None
           Hroute Hagent Hchat Hstream).
Qed.

Lemma C5_final_content_witness :
  last (trace_of (App.on_message w_answers sample_globals "who is paul allen?"
                    (App.Session (Some "Paul Allen AI Agent") (Some sample_agent))))
  = Some (Update (Message "Paul Allen co-founded Microsoft." [] None)).
Proof.
  rewrite (C5_final_content_is_concatenation w_answers sample_globals
             "who is paul allen?"
             (App.Session (Some "Paul Allen AI Agent") (Some sample_agent))
             sample_agent ["Paul Allen "; "co-founded "; "Microsoft."]).
  - reflexivity.
  - reflexivity.
  - reflexivity.
  - exists "paul_allen_questions". split; [reflexivity | simpl; tauto].
  - reflexivity.
  - reflexivity.
  - reflexivity.
Defined.

(** ** C6 *)

(** C6: two runs of the ingestion script that go through, on the same
    environment and the same file, where the second starts from the index
    the first one left.  The second run deletes that index and creates it
    again before it upserts, so the index it leaves holds the records of the
    second run only, with the chunk count and the dimension of the first. *)
Theorem C6_ingestion_is_full_rebuild
    (w1 w2 : world) (py_int : string → option Z) (arg : option string)
    (s0 s1 s2 : gmap string Ingest.index_info) (t1 t2 : list event) :
  let input_file := default Ingest.default_input_file arg in
  (∀ v, getenv w1 v = getenv w2 v) →
  read_documents w1 input_file = read_documents w2 input_file →
  (∀ docs, node_text <$> split_nodes w1 docs = node_text <$> split_nodes w2 docs) →
  NoDup (node_id <$> split_nodes w1 (read_documents w1 input_file)) →
  NoDup (node_id <$> split_nodes w2 (read_documents w2 input_file)) →
  Ingest.main w1 py_int arg s0 = (Returned tt, s1, t1) →
  Ingest.main w2 py_int arg s1 = (Returned tt, s2, t2) →
  ∃ n ix1 ix2,
    getenv w1 "PINECONE_INDEX_NAME" = Some n
    ∧ s1 !! n = Some ix1
    ∧ s2 !! n = Some ix2
    ∧ sdk_calls t2 = Ingest.success_calls w2 py_int arg n true
    ∧ Ingest.ix_records ix2
      = Ingest.upsert_all (split_nodes w2 (read_documents w2 input_file)) ∅
    ∧ Ingest.chunk_count ix2 = Ingest.chunk_count ix1
    ∧ Ingest.chunk_count ix2 = length (split_nodes w2 (read_documents w2 input_file))
    ∧ Ingest.ix_dimension ix2 = Ingest.ix_dimension ix1.
Proof.
  intros input_file Henv Hdocs Htexts Hnd1 Hnd2 Hrun1 Hrun2.
  apply main_success in Hrun1 as (n & Hn & -> & _).
  apply main_success in Hrun2 as (n' & Hn' & -> & Hcalls).
  rewrite <- Henv, Hn in Hn'. injection Hn' as <-.
  rewrite lookup_insert_eq in Hcalls.
  rewrite bool_decide_eq_true_2 in Hcalls by eauto.
  eexists n, _, _. split; [exact Hn|].
  split; [apply lookup_insert_eq|]. split; [apply lookup_insert_eq|].
  split; [exact Hcalls|]. split; [reflexivity|].
  unfold Ingest.chunk_count. simpl. fold input_file.
  rewrite !upsert_all_empty_size by assumption.
  split; [|split; [reflexivity|]].
  - rewrite <- (length_fmap node_text (split_nodes w2 _)).
    rewrite <- (length_fmap node_text (split_nodes w1 _)).
    now rewrite <- Hdocs, Htexts.
  - unfold Ingest.effective_dim. now rewrite Henv.
Qed.

Lemma C6_ingestion_witness :
  ∃ ix1 ix2,
    state_of first_run !! "paul-allen" = Some ix1
    ∧ state_of second_run !! "paul-allen" = Some ix2
    ∧ Ingest.chunk_count ix2 = Ingest.chunk_count ix1
    ∧ Ingest.chunk_count ix2 = 2%nat
    ∧ Ingest.ix_dimension ix2 = Ingest.ix_dimension ix1.
Proof.
  destruct (C6_ingestion_is_full_rebuild w_first_run w_second_run ascii_int
              None ∅ (state_of first_run) (state_of second_run)
              (trace_of first_run) (trace_of second_run))
    as (n & ix1 & ix2 & Hn & H1 & H2 & _ & _ & Hc & Hl & Hd).
  - reflexivity.
  - reflexivity.
  - reflexivity.
  - compute_done.
  - compute_done.
  - vm_compute. reflexivity.
  - vm_compute. reflexivity.
  - injection Hn as <-. exists ix1, ix2. auto.
Defined.

(** ** C7 *)

(** C7: when the input path does not exist, the ingestion script ends with
    a nonzero exit status, makes no SDK call (so no index is listed,
    deleted or created and nothing is embedded or upserted), and leaves the
    remote store as it was. *)
Theorem C7_missing_input_file_no_remote_calls
    (w : world) (py_int : string → option Z) (arg : option string)
    (s : gmap string Ingest.index_info) :
  path_exists w (default Ingest.default_input_file arg) = false →
  let r := Ingest.main w py_int arg s in
  exit_status (outcome_of r) ≠ 0
  ∧ sdk_calls (trace_of r) = []
  ∧ remote_calls (trace_of r) = []
  ∧ state_of r = s.
Proof.
  intros Hfile r.
  destruct (main_missing_file w py_int arg s Hfile) as (Ho & Hs & Ht).
  fold r in Ho, Hs, Ht. unfold remote_calls. rewrite Ht.
  repeat split; try assumption.
  destruct Ho as [-> | [e ->]]; simpl; lia.
Qed.

Lemma C7_missing_input_file_witness :
  exit_status (outcome_of (Ingest.main w_first_run ascii_int (Some "./notes.txt") ∅)) ≠ 0
  ∧ sdk_calls (trace_of (Ingest.main w_first_run ascii_int (Some "./notes.txt") ∅)) = [].
Proof.
  destruct (C7_missing_input_file_no_remote_calls w_first_run ascii_int
              (Some "./notes.txt") ∅) as (Hexit & Hcalls & _).
  - reflexivity.
  - split; assumption.
Defined.

(** ** C8 *)

(** C8: every session start emits first three messages, in this order: the
    header message (the branding text element), the image message and the
    welcome text.  What follows is the trace of the guarded agent setup: all
    SDK calls of the session start come after the three messages, and the
    setup sends nothing more, or one setup-error message. *)
Theorem C8_session_start_intro_messages
    (w : world) (g : App.globals) (s : App.session) :
  ∃ header image welcome rest,
    trace_of (App.on_chat_start w g s)
    = Send header :: Send image :: Send welcome :: rest
    ∧ App.intro_messages = [header; image; welcome]
    ∧ (content header = ""
       ∧ elements header
         = [Text "Paul Allen Archives" "💡 From Microsoft to Megayachts: Ask Anything" "inline"])
    ∧ (content image = ""
       ∧ elements image = [Image "./public/Paul_Allen.jpg" "image1" "inline"])
    ∧ (content welcome = App.welcome_text ∧ elements welcome = [])
    ∧ rest = trace_of (App.guarded_setup w g
                         (App.Session (Some "Paul Allen AI Agent") (App.agent s)))
    ∧ sdk_calls (trace_of (App.on_chat_start w g s)) = sdk_calls rest
    ∧ (sent rest = [] ∨ ∃ e, sent rest = [App.setup_error_message e]).
Proof.
  do 4 eexists. rewrite on_chat_start_run.
  split; [reflexivity|]. split; [reflexivity|].
  split; [split; reflexivity|]. split; [split; reflexivity|].
  split; [split; reflexivity|]. split; [reflexivity|]. split; [reflexivity|].
  destruct (guarded_setup_handled w g
              (App.Session (Some "Paul Allen AI Agent") (App.agent s)))
    as (_ & [(_ & Hsent) | (e & _ & Hsent & _)]); eauto.
Qed.

(** ** C9 *)

(** C9: when [EMBEDDING_DIM] is unset, or set to text that [int] rejects,
    both entry points work with dimension 1024: no index or embedding model
    is configured with another dimension, and the globals of the chat
    application hold 1024.  In the second case the first event of either
    entry point is the log record that reports the fallback (emitted with
    [logging.error]). *)
Theorem C9_embedding_dim_falls_back_to_1024
    (w : world) (py_int : string → option Z) (arg : option string)
    (s : gmap string Ingest.index_info) :
  py_int "1024" = Some 1024 →
  (getenv w "EMBEDDING_DIM" = None
   ∨ ∃ v, getenv w "EMBEDDING_DIM" = Some v ∧ py_int v = None) →
  Forall (uses_dimension 1024) (trace_of (Ingest.main w py_int arg s))
  ∧ Forall (uses_dimension 1024) (trace_of (App.module_init w py_int tt))
  ∧ (∀ g, outcome_of (App.module_init w py_int tt) = Returned g →
          App.embedding_dim g = 1024)
  ∧ (is_Some (getenv w "EMBEDDING_DIM") →
     head (trace_of (Ingest.main w py_int arg s))
       = Some (Log ERROR "EMBEDDING_DIM environment variable must be a valid integer. Defaulting to 1024.")
     ∧ head (trace_of (App.module_init w py_int tt))
       = Some (Log ERROR "EMBEDDING_DIM environment variable must be a valid integer. Defaulting to 1024.")).
Proof.
  intros Hint Hdim. split; [|split; [|split]].
  - now apply main_uses_1024.
  - now apply module_init_uses_1024.
  - intros g. now apply module_init_globals_1024.
  - intros [v Hv]. split.
    + unfold Ingest.main.
      rewrite (bind_returned _ _ _ _ _ _
                 (ingest_load_embedding_dim_run w py_int Hint Hdim s)).
      rewrite Hv. reflexivity.
    + unfold App.module_init.
      rewrite (bind_returned _ _ _ _ _ _
                 (app_load_embedding_dim_run w py_int Hdim tt)).
      rewrite Hv. reflexivity.
Qed.

Lemma C9_embedding_dim_witness :
  getenv w_bad_dim "EMBEDDING_DIM" = Some "large"
  ∧ Forall (uses_dimension 1024) (trace_of (Ingest.main w_bad_dim ascii_int None ∅))
  ∧ head (trace_of (App.module_init w_bad_dim ascii_int tt))
    = Some (Log ERROR "EMBEDDING_DIM environment variable must be a valid integer. Defaulting to 1024.").
Proof.
  destruct (C9_embedding_dim_falls_back_to_1024 w_bad_dim ascii_int None ∅)
    as (Hmain & _ & _ & Hlog).
  - reflexivity.
  - right. exists "large". split; reflexivity.
  - split; [reflexivity | split; [exact Hmain|]].
    apply Hlog. exists "large". reflexivity.
Defined.

(** ** C10 *)

(** C10: the names the message handler accepts are the names of the routes
    of the route table, in the same order. *)
Theorem C10_allowed_names_are_route_names :
  name <$> Router.allowed_routes = App.allowed_route_names
  ∧ (∀ n, In n App.allowed_route_names
          ↔ ∃ r, In r Router.allowed_routes ∧ name r = n).
Proof.
  split; [reflexivity|]. intros n. split.
  - intros Hn.
    destruct (proj1 (in_map_iff name Router.allowed_routes n) Hn)
      as (r & Hname & Hr).
    exists r. auto.
  - intros (r & Hr & <-). now apply (in_map name Router.allowed_routes r).
Qed.

(** * Further properties *)

(** ** Stepping through a computation *)

Lemma outcome_of_prepend {S A} es (r : outcome A * S * list event) :
  outcome_of (prepend es r) = outcome_of r.
Proof. reflexivity. Qed.

Lemma state_of_prepend {S A} es (r : outcome A * S * list event) :
  state_of (prepend es r) = state_of r.
Proof. reflexivity. Qed.

Lemma trace_of_prepend {S A} es (r : outcome A * S * list event) :
  trace_of (prepend es r) = es ++ trace_of r.
Proof. reflexivity. Qed.

Lemma bind_assoc {S A B C} (m : M S A) (f : A → M S B) (h : B → M S C) s :
  bind (bind m f) h s = bind m (λ a, bind (f a) h) s.
Proof.
  unfold bind. destruct (m s) as [[[a|e|c] s1] t1]; try reflexivity.
  destruct (f a s1) as [[[b|e|c] s2] t2]; try reflexivity.
  destruct (h b s2) as [[o s3] t3]. now rewrite app_assoc.
Qed.

Lemma bind_step {S A B} (m : M S A) (k : A → M S B) s a s1 t1 :
  m s = (Returned a, s1, t1) → bind m k s = prepend t1 (k a s1).
Proof.
  intros E. unfold bind, prepend. rewrite E.
  now destruct (k a s1) as [[o s2] t2].
Qed.

Lemma bind_emit {S B} (e : event) (k : unit → M S B) s :
  bind (emit e) k s = prepend [e] (k tt s).
Proof. now apply bind_step. Qed.

Lemma bind_ret {S A B} (a : A) (k : A → M S B) s :
  bind (ret a) k s = prepend [] (k a s).
Proof. now apply bind_step. Qed.

Lemma bind_get {S B} (k : S → M S B) s : bind get k s = prepend [] (k s s).
Proof. now apply bind_step. Qed.

Lemma bind_put {S B} (x : S) (k : unit → M S B) s :
  bind (put x) k s = prepend [] (k tt x).
Proof. now apply bind_step. Qed.

Lemma bind_raise {S A B} (e : exn) (k : A → M S B) s :
  bind (raise e) k s = (Raised e, s, []).
Proof. reflexivity. Qed.

Lemma bind_sys_exit {S A B} (c : Z) (k : A → M S B) s :
  bind (sys_exit c) k s = (Exited c, s, []).
Proof. reflexivity. Qed.

Lemma sdk_ok {S} (w : world) (c : call) (s : S) :
  sdk_fault w c = None → sdk w c s = (Returned tt, s, [Sdk c]).
Proof. intros E. run. now rewrite E. Qed.

Lemma sdk_fail {S} (w : world) (c : call) (s : S) msg :
  sdk_fault w c = Some msg → sdk w c s = (Raised (SdkError msg), s, [Sdk c]).
Proof. intros E. run. now rewrite E. Qed.

Lemma bind_sdk_ok {S B} (w : world) (c : call) (k : unit → M S B) s :
  sdk_fault w c = None → bind (sdk w c) k s = prepend [Sdk c] (k tt s).
Proof. intros E. apply bind_step. now apply sdk_ok. Qed.

Lemma bind_sdk_fail {S B} (w : world) (c : call) (k : unit → M S B) s msg :
  sdk_fault w c = Some msg →
  bind (sdk w c) k s = (Raised (SdkError msg), s, [Sdk c]).
Proof. intros E. unfold bind. now rewrite (sdk_fail w c s msg E). Qed.

Lemma py_in_index_names (s : gmap string Ingest.index_info) (n : string) :
  py_in (Some n) (map_to_list s).*1 = bool_decide (is_Some (s !! n)).
Proof.
  unfold py_in. apply bool_decide_ext.
  rewrite list_elem_of_fmap. split.
  - intros ([k ix] & -> & Hin). apply elem_of_map_to_list in Hin. eauto.
  - intros [ix Hix]. exists (n, ix). split; [reflexivity|].
    now apply elem_of_map_to_list.
Qed.

(** One step of a computation applied to a state; SDK faults and undecided
    tests split the goal. *)
Ltac exec_step :=
  match goal with
  | H : sdk_fault ?w ?c = None |- context [bind (sdk ?w ?c) ?k ?s] =>
      rewrite (bind_sdk_ok w c k s H)
  | H : sdk_fault ?w ?c = Some ?msg |- context [bind (sdk ?w ?c) ?k ?s] =>
      rewrite (bind_sdk_fail w c k s msg H)
  | H : sdk_fault ?w ?c = None |- context [sdk ?w ?c ?s] =>
      rewrite (sdk_ok w c s H)
  | H : sdk_fault ?w ?c = Some ?msg |- context [sdk ?w ?c ?s] =>
      rewrite (sdk_fail w c s msg H)
  | H : ?b = true |- context [if ?b then _ else _] => rewrite H
  | H : ?b = false |- context [if ?b then _ else _] => rewrite H
  | H : ?x = Some _ |- context [match ?x with Some _ => _ | None => _ end] =>
      rewrite H
  | H : ?x = None |- context [match ?x with Some _ => _ | None => _ end] =>
      rewrite H
  | |- context [bind (bind ?m ?f) ?h ?s] => rewrite (bind_assoc m f h s)
  | |- context [bind (emit ?e) ?k ?s] => rewrite (bind_emit e k s)
  | |- context [bind (ret ?a) ?k ?s] => rewrite (bind_ret a k s)
  | |- context [bind get ?k ?s] => rewrite (bind_get k s)
  | |- context [bind (put ?x) ?k ?s] => rewrite (bind_put x k s)
  | |- context [bind (raise ?e) ?k ?s] => rewrite (bind_raise e k s)
  | |- context [bind (sys_exit ?c) ?k ?s] => rewrite (bind_sys_exit c k s)
  | |- context [bind (sdk ?w ?c) ?k ?s] =>
      let E := fresh "Hfault" in
      destruct (sdk_fault w c) eqn:E;
      [ rewrite (bind_sdk_fail w c k s _ E) | rewrite (bind_sdk_ok w c k s E) ]
  | |- context [sdk ?w ?c ?s] =>
      let E := fresh "Hfault" in
      destruct (sdk_fault w c) eqn:E;
      [ rewrite (sdk_fail w c s _ E) | rewrite (sdk_ok w c s E) ]
  | |- context [bind (if ?b then _ else _) _ _] =>
      let E := fresh "Htest" in destruct b eqn:E
  | |- context [(if ?b then _ else _) _] =>
      let E := fresh "Htest" in destruct b eqn:E
  | |- context [bind (match ?x with Some _ => _ | None => _ end) _ _] =>
      let E := fresh "Hcase" in destruct x eqn:E
  | |- context [(match ?x with Some _ => _ | None => _ end) _] =>
      let E := fresh "Hcase" in destruct x eqn:E
  end; cbv beta iota zeta.

Ltac exec :=
  unfold logging_info, logging_warning, logging_error; cbv beta iota zeta;
  repeat (rewrite ?lookup_delete_eq, ?lookup_insert_eq, ?py_in_index_names;
          exec_step).

Ltac peel :=
  rewrite ?outcome_of_prepend, ?state_of_prepend, ?trace_of_prepend;
  unfold emit, raise, ret, put, sys_exit;
  cbn [outcome_of state_of trace_of fst snd].

(** ** The ingestion script, on every path *)

Lemma load_embedding_dim_logs (w : world) (py_int : string → option Z) {S} (s : S) :
  ∃ t, Ingest.load_embedding_dim w py_int s
       = (Returned (Ingest.effective_dim w py_int), s, t)
       ∧ sdk_calls t = []
       ∧ Forall (λ e, ∃ lv msg, e = Log lv msg) t.
Proof.
  unfold Ingest.load_embedding_dim, Ingest.effective_dim. run.
  destruct (py_int _); simpl; eexists; repeat split; eauto.
Qed.

Lemma app_load_embedding_dim_logs (w : world) (py_int : string → option Z) {S} (s : S) :
  ∃ t, App.load_embedding_dim w py_int s
       = (Returned (app_effective_dim w py_int), s, t)
       ∧ sdk_calls t = []
       ∧ Forall (λ e, ∃ lv msg, e = Log lv msg) t.
Proof.
  unfold App.load_embedding_dim, app_effective_dim. run.
  destruct (getenv w "EMBEDDING_DIM") as [v|]; simpl.
  - destruct (py_int v); simpl; eexists; repeat split; eauto.
  - eexists; repeat split; eauto.
Qed.

Lemma upsert_all_lookup_notin (ns : list node) (recs : gmap string string) (k : string) :
  k ∉ node_id <$> ns → Ingest.upsert_all ns recs !! k = recs !! k.
Proof.
  unfold Ingest.upsert_all. revert recs.
  induction ns as [|n ns IH]; intros recs Hk; [reflexivity|].
  rewrite fmap_cons in Hk. apply not_elem_of_cons in Hk as [Hne Hk].
  cbn [foldl]. rewrite IH by exact Hk.
  unfold Ingest.upsert. now rewrite lookup_insert_ne.
Qed.

Lemma upsert_all_lookup_in (ns : list node) (recs : gmap string string) (nd : node) :
  NoDup (node_id <$> ns) → nd ∈ ns →
  Ingest.upsert_all ns recs !! node_id nd = Some (node_text nd).
Proof.
  revert recs. induction ns as [|n ns IH]; intros recs Hnd Hin.
  - now apply elem_of_nil in Hin.
  - rewrite fmap_cons in Hnd. apply NoDup_cons in Hnd as [Hn Hnd].
    apply elem_of_cons in Hin as [-> | Hin].
    + change (Ingest.upsert_all (n :: ns) recs)
        with (Ingest.upsert_all ns (Ingest.upsert recs n)).
      rewrite upsert_all_lookup_notin by exact Hn.
      unfold Ingest.upsert. apply lookup_insert_eq.
    + change (Ingest.upsert_all (n :: ns) recs)
        with (Ingest.upsert_all ns (Ingest.upsert recs n)).
      now apply IH.
Qed.

(** Turn the recorded results of decidable tests into propositions. *)
Ltac decide_tests :=
  repeat match goal with
  | H : bool_decide _ = true |- _ => apply bool_decide_eq_true in H
  | H : bool_decide _ = false |- _ => apply bool_decide_eq_false in H
  end.

Ltac destruct_is_Some :=
  repeat match goal with
  | H : is_Some _ |- _ => destruct H as [? H]
  end.

Section IngestFurther.

Variable w : world.
Variable py_int : string → option Z.

(** Every path of [main] from the store [s], as results that spell out
    their events. *)
Ltac main_open s :=
  let t0 := fresh "t0" in
  let E0 := fresh "E0" in
  let Ht0 := fresh "Ht0" in
  let Hlog := fresh "Hlog" in
  unfold Ingest.main;
  destruct (load_embedding_dim_logs w py_int s) as (t0 & E0 & Ht0 & Hlog);
  rewrite (bind_step _ _ _ _ _ _ E0); clear E0;
  cbv beta zeta;
  unfold Ingest.from_documents, Ingest.Index, Ingest.create_index,
    Ingest.delete_index, Ingest.list_indexes_names.

Ltac main_exec :=
  match goal with
  | H : getenv _ "PINECONE_INDEX_NAME" = _ |- _ => rewrite ?H
  | _ => idtac
  end;
  cbn [forallb truthy negb andb];
  exec; peel;
  match goal with
  | H : sdk_calls _ = [] |- _ => rewrite ?sdk_calls_app, ?H
  end;
  cbn [app].

Ltac main_paths s := main_open s; main_exec.

(** X1: a run of [main], however it ends, leaves every index other than the
    configured one as it was. *)
Theorem main_leaves_other_indexes
    (arg : option string) (s : gmap string Ingest.index_info) (m : string) :
  getenv w "PINECONE_INDEX_NAME" ≠ Some m →
  state_of (Ingest.main w py_int arg s) !! m = s !! m.
Proof.
  intros Hm.
  destruct (getenv w "PINECONE_INDEX_NAME") as [n|] eqn:Hn; main_paths s;
    try reflexivity;
    rewrite ?lookup_insert_ne, ?lookup_delete_ne by congruence; reflexivity.
Qed.

(** X2: when the configured index is not in the project as the run starts,
    [main] never calls [delete_index]. *)
Theorem main_no_delete_when_absent
    (arg : option string) (s : gmap string Ingest.index_info) :
  (∀ n, getenv w "PINECONE_INDEX_NAME" = Some n → s !! n = None) →
  ∀ x, ¬ In (DeleteIndex x) (sdk_calls (trace_of (Ingest.main w py_int arg s))).
Proof.
  intros Habsent x.
  destruct (getenv w "PINECONE_INDEX_NAME") as [n|] eqn:Hn.
  - specialize (Habsent n eq_refl). main_paths s; simpl;
      try (intros Hin; repeat (destruct Hin as [Hin | Hin]; [discriminate|]);
           exact Hin);
      decide_tests; destruct_is_Some; congruence.
  - main_paths s; simpl;
      try (intros Hin; repeat (destruct Hin as [Hin | Hin]; [discriminate|]);
           exact Hin).
Qed.

(** X3: the rebuild is not atomic.  When the configured index exists and
    the run gets as far as deleting it, a failure of [create_index] ends the
    run with that exception and leaves the project without the index. *)
Theorem main_create_failure_loses_index
    (arg : option string) (s : gmap string Ingest.index_info)
    (n msg : string) (ix : Ingest.index_info) :
  getenv w "PINECONE_INDEX_NAME" = Some n →
  forallb truthy [getenv w "PINECONE_INDEX_NAME"; getenv w "PINECONE_API_KEY";
                  getenv w "OPENAI_API_KEY"] = true →
  path_exists w (default Ingest.default_input_file arg) = true →
  s !! n = Some ix →
  sdk_fault w (LoadData (default Ingest.default_input_file arg)) = None →
  sdk_fault w (PineconeClient (getenv w "PINECONE_API_KEY")) = None →
  sdk_fault w ListIndexes = None →
  sdk_fault w (DeleteIndex (Some n)) = None →
  sdk_fault w (CreateIndex (Some n) (Ingest.effective_dim w py_int) "cosine"
                 (getenv w "PINECONE_CLOUD") (getenv w "PINECONE_REGION"))
    = Some msg →
  let r := Ingest.main w py_int arg s in
  outcome_of r = Raised (SdkError msg)
  ∧ state_of r = delete n s
  ∧ state_of r !! n = None.
Proof.
  intros Hn Hcfg Hfile Hix Hload Hclient Hlist Hdelete Hcreate r. subst r.
  assert (bool_decide (is_Some (s !! n)) = true) as Hlisted
    by (apply bool_decide_eq_true; eauto).
  main_open s. rewrite Hcfg, Hfile. main_exec.
  repeat split. apply lookup_delete_eq.
Qed.

(** X4: when loading the input, building the Pinecone client or listing the
    indexes raises, the run ends with an SDK exception, the project is as it
    was, and no index was deleted, created or written. *)
Theorem main_early_failure_keeps_store
    (arg : option string) (s : gmap string Ingest.index_info) :
  forallb truthy [getenv w "PINECONE_INDEX_NAME"; getenv w "PINECONE_API_KEY";
                  getenv w "OPENAI_API_KEY"] = true →
  path_exists w (default Ingest.default_input_file arg) = true →
  is_Some (sdk_fault w (LoadData (default Ingest.default_input_file arg)))
  ∨ is_Some (sdk_fault w (PineconeClient (getenv w "PINECONE_API_KEY")))
  ∨ is_Some (sdk_fault w ListIndexes) →
  let r := Ingest.main w py_int arg s in
  (∃ msg, outcome_of r = Raised (SdkError msg))
  ∧ state_of r = s
  ∧ (∀ c, In c (sdk_calls (trace_of r)) →
          c = LoadData (default Ingest.default_input_file arg)
          ∨ c = PineconeClient (getenv w "PINECONE_API_KEY")
          ∨ c = ListIndexes).
Proof.
  intros Hcfg Hfile Hearly r. subst r.
  destruct (sdk_fault w (LoadData _)) as [m1|] eqn:Hload;
    [|destruct (sdk_fault w (PineconeClient _)) as [m2|] eqn:Hclient;
      [|destruct (sdk_fault w ListIndexes) as [m3|] eqn:Hlist]].
  4:{ destruct Hearly as [[? [=]] | [[? [=]] | [? [=]]]]. }
  all: main_open s; rewrite Hcfg, Hfile; main_exec; simpl;
    (split; [eauto | split; [reflexivity|]]); intros c Hc;
    intuition (subst; auto).
Qed.

(** X5: both entry points configure every index and embedding model with
    one dimension, the value of [EMBEDDING_DIM] when it is an integer and
    1024 otherwise. *)
Theorem entry_points_agree_on_dimension
    (arg : option string) (s : gmap string Ingest.index_info) :
  py_int "1024" = Some 1024 →
  let d := app_effective_dim w py_int in
  Forall (uses_dimension d) (trace_of (Ingest.main w py_int arg s))
  ∧ Forall (uses_dimension d) (trace_of (App.module_init w py_int tt))
  ∧ (∀ g, outcome_of (App.module_init w py_int tt) = Returned g →
          App.embedding_dim g = d)
  ∧ (∀ v n, getenv w "EMBEDDING_DIM" = Some v → py_int v = Some n → d = n).
Proof.
  intros Hint d.
  assert (Ingest.effective_dim w py_int = d) as Hd.
  { unfold d, Ingest.effective_dim, app_effective_dim.
    destruct (getenv w "EMBEDDING_DIM") as [v|]; simpl.
    - now destruct (py_int v).
    - now rewrite Hint. }
  assert (∀ t, Forall (λ e, ∃ lv msg, e = Log lv msg) t →
               Forall (uses_dimension d) t) as Hlogs.
  { intros t Ht. eapply Forall_impl; [exact Ht|].
    intros e (lv & msg & ->). exact I. }
  split; [|split; [|split]].
  - unfold Ingest.main. apply trace_bind.
    + destruct (load_embedding_dim_logs w py_int s) as (t0 & -> & _ & Hlog).
      now apply Hlogs.
    + intros d' s1 t1.
      destruct (load_embedding_dim_logs w py_int s) as (t0 & -> & _ & _).
      rewrite Hd. intros [= <- <- <-].
      unfold Ingest.from_documents, Ingest.Index, Ingest.create_index,
        Ingest.delete_index, Ingest.list_indexes_names,
        logging_info, logging_warning, logging_error.
      trace_walk; simpl; auto.
  - unfold App.module_init. apply trace_bind.
    + destruct (app_load_embedding_dim_logs w py_int tt) as (t0 & -> & _ & Hlog).
      now apply Hlogs.
    + intros d' s1 t1.
      destruct (app_load_embedding_dim_logs w py_int tt) as (t0 & -> & _ & _).
      intros [= <- <- <-]. unfold logging_info, logging_error.
      trace_walk; simpl; auto.
  - intros g. unfold App.module_init.
    destruct (app_load_embedding_dim_logs w py_int tt) as (t0 & E0 & _ & _).
    rewrite (bind_returned _ _ _ _ _ _ E0).
    destruct (negb (truthy _)); [discriminate|].
    run. fault_cases; intros [= <-]; reflexivity.
  - intros v n Hv Hn. unfold d, app_effective_dim. now rewrite Hv, Hn.
Qed.

(** X6: after a run of [main] that returns, whatever the project held
    before, the configured index has the configured dimension, the cosine
    metric and the configured cloud and region, and its records are the
    nodes of this run: each node's text under its id, and nothing under any
    other id. *)
Theorem main_success_index_content
    (arg : option string) (s s' : gmap string Ingest.index_info) (t : list event) :
  let nodes := split_nodes w (read_documents w (default Ingest.default_input_file arg)) in
  NoDup (node_id <$> nodes) →
  Ingest.main w py_int arg s = (Returned tt, s', t) →
  ∃ n ix,
    getenv w "PINECONE_INDEX_NAME" = Some n
    ∧ s' !! n = Some ix
    ∧ Ingest.ix_dimension ix = Ingest.effective_dim w py_int
    ∧ Ingest.ix_metric ix = "cosine"
    ∧ Ingest.ix_cloud ix = getenv w "PINECONE_CLOUD"
    ∧ Ingest.ix_region ix = getenv w "PINECONE_REGION"
    ∧ (∀ nd, nd ∈ nodes → Ingest.ix_records ix !! node_id nd = Some (node_text nd))
    ∧ (∀ k, k ∉ node_id <$> nodes → Ingest.ix_records ix !! k = None).
Proof.
  intros nodes Hnd Hrun.
  apply main_success in Hrun as (n & Hn & -> & _).
  eexists n, _. split; [exact Hn|]. split; [apply lookup_insert_eq|].
  simpl. repeat split.
  - intros nd Hin. now apply upsert_all_lookup_in.
  - intros k Hk. rewrite upsert_all_lookup_notin by exact Hk.
    apply lookup_empty.
Qed.

End IngestFurther.

Lemma main_leaves_other_indexes_witness :
  state_of (Ingest.main w_first_run ascii_int None old_store) !! "other"
  = old_store !! "other".
Proof.
  apply (main_leaves_other_indexes w_first_run ascii_int None old_store "other").
  compute_done.
Defined.

Lemma main_no_delete_when_absent_witness :
  ¬ In (DeleteIndex (Some "paul-allen"))
       (sdk_calls (trace_of (Ingest.main w_first_run ascii_int None ∅))).
Proof.
  apply (main_no_delete_when_absent w_first_run ascii_int None ∅).
  intros n _. reflexivity.
Defined.

Lemma main_create_failure_witness :
  outcome_of (Ingest.main w_create_fails ascii_int None old_store)
  = Raised (SdkError "503 Service Unavailable")
  ∧ state_of (Ingest.main w_create_fails ascii_int None old_store) !! "paul-allen"
    = None.
Proof.
  destruct (main_create_failure_loses_index w_create_fails ascii_int None
              old_store "paul-allen" "503 Service Unavailable"
              (Ingest.IndexInfo 1536 "cosine" (Some "aws") (Some "us-east-1")
                 (<["stale" := "old text"]> ∅)))
    as (Ho & _ & Hs); try reflexivity.
  split; assumption.
Defined.

Lemma main_early_failure_witness :
  state_of (Ingest.main w_load_fails ascii_int None old_store) = old_store.
Proof.
  destruct (main_early_failure_keeps_store w_load_fails ascii_int None old_store)
    as (_ & Hs & _).
  - reflexivity.
  - reflexivity.
  - left. eexists. reflexivity.
  - exact Hs.
Defined.

Lemma entry_points_agree_on_dimension_witness :
  Forall (uses_dimension 512) (trace_of (Ingest.main w_dim_512 ascii_int None ∅))
  ∧ Forall (uses_dimension 512) (trace_of (App.module_init w_dim_512 ascii_int tt)).
Proof.
  destruct (entry_points_agree_on_dimension w_dim_512 ascii_int None ∅)
    as (Hmain & Hinit & _).
  - reflexivity.
  - split; [exact Hmain | exact Hinit].
Defined.

Lemma main_success_index_content_witness :
  ∃ ix, state_of first_run !! "paul-allen" = Some ix
    ∧ Ingest.ix_dimension ix = 1024
    ∧ Ingest.ix_records ix !! "first-0" = Some "Paul Allen co-founded Microsoft."
    ∧ Ingest.ix_records ix !! "stale" = None.
Proof.
  destruct (main_success_index_content w_first_run ascii_int None ∅
              (state_of first_run) (trace_of first_run))
    as (n & ix & Hn & Hix & Hdim & _ & _ & _ & Hin & Hout).
  - compute_done.
  - vm_compute. reflexivity.
  - injection Hn as <-. exists ix. split; [exact Hix|]. split; [exact Hdim|].
    split.
    + apply (Hin (Node "first-0" "Paul Allen co-founded Microsoft.")).
      vm_compute. constructor.
    + apply Hout. compute_done.
Defined.

(** ** Module initialisation of the chat application *)

Section InitFurther.

Variable w : world.
Variable py_int : string → option Z.

(** X7: with an OpenAI key present, module initialisation fails only when
    the embedding model cannot be built.  A failure to build the encoder or
    the router is logged and swallowed: initialisation returns, with the
    settings read from the environment, and [router_layer] is bound exactly
    when both constructions went through. *)
Theorem module_init_tolerates_router_failure :
  truthy (getenv w "OPENAI_API_KEY") = true →
  let r := App.module_init w py_int tt in
  match sdk_fault w (OpenAIEmbedding (configured_model w) (app_effective_dim w py_int)
                       (getenv w "OPENAI_API_KEY")) with
  | Some msg => outcome_of r = Raised (SdkError msg)
  | None =>
      ∃ g, outcome_of r = Returned g
        ∧ App.pinecone_index_name g = getenv w "PINECONE_INDEX_NAME"
        ∧ App.openai_api_key g = getenv w "OPENAI_API_KEY"
        ∧ App.embedding_model g = configured_model w
        ∧ App.embedding_dim g = app_effective_dim w py_int
        ∧ (App.router_layer g = true ↔
           sdk_fault w (OpenAIEncoder (configured_model w) (getenv w "OPENAI_API_KEY")) = None
           ∧ sdk_fault w (SemanticRouter Router.allowed_routes "merge-force-local") = None)
        ∧ (App.router_layer g = false →
           ∃ msg, In (Log ERROR ("Error initializing Semantic Router: " +:+ msg))
                     (trace_of r))
  end.
Proof.
  intros Hkey r. subst r. unfold App.module_init, configured_model.
  destruct (app_load_embedding_dim_logs w py_int tt) as (t0 & E0 & _ & _).
  rewrite (bind_returned _ _ _ _ _ _ E0). rewrite Hkey. run.
  destruct (sdk_fault w (OpenAIEmbedding _ _ _)) as [m0|]; simpl; [reflexivity|].
  destruct (sdk_fault w (OpenAIEncoder _ _)) as [m1|] eqn:Henc; simpl.
  - eexists. repeat split; try reflexivity; try discriminate.
    + intros [[=] _].
    + intros _. exists m1. apply in_or_app. right. simpl. auto.
  - destruct (sdk_fault w (SemanticRouter _ _)) as [m2|] eqn:Hrouter; simpl.
    + eexists. repeat split; try reflexivity; try discriminate.
      * intros [_ [=]].
      * intros _. exists m2. apply in_or_app. right. simpl. auto.
    + eexists. repeat split; try reflexivity; discriminate.
Qed.

(** X8: on every path, both entry points build embedding models and the
    router's encoder with one model name: [EMBEDDING_MODEL], or
    [text-embedding-3-small] when it is unset. *)
Theorem entry_points_agree_on_model
    (arg : option string) (s : gmap string Ingest.index_info) :
  Forall (uses_model (configured_model w)) (trace_of (Ingest.main w py_int arg s))
  ∧ Forall (uses_model (configured_model w)) (trace_of (App.module_init w py_int tt)).
Proof.
  assert (∀ t, Forall (λ e, ∃ lv msg, e = Log lv msg) t →
               Forall (uses_model (configured_model w)) t) as Hlogs.
  { intros t Ht. eapply Forall_impl; [exact Ht|].
    intros e (lv & msg & ->). exact I. }
  split.
  - unfold Ingest.main. apply trace_bind.
    + destruct (load_embedding_dim_logs w py_int s) as (t0 & -> & _ & Hlog).
      now apply Hlogs.
    + intros d' s1 t1 _.
      unfold Ingest.from_documents, Ingest.Index, Ingest.create_index,
        Ingest.delete_index, Ingest.list_indexes_names,
        logging_info, logging_warning, logging_error.
      trace_walk; simpl; auto.
  - unfold App.module_init. apply trace_bind.
    + destruct (app_load_embedding_dim_logs w py_int tt) as (t0 & -> & _ & Hlog).
      now apply Hlogs.
    + intros d' s1 t1 _. unfold logging_info, logging_error.
      trace_walk; simpl; auto.
Qed.

End InitFurther.

Lemma module_init_tolerates_router_failure_witness :
  ∃ g, outcome_of (App.module_init w_router_down ascii_int tt) = Returned g
    ∧ App.router_layer g = false.
Proof.
  destruct (module_init_tolerates_router_failure w_router_down ascii_int)
    as (g & Hg & _ & _ & _ & _ & Hrouter & _).
  - reflexivity.
  - exists g. split; [exact Hg|].
    destruct (App.router_layer g); [|reflexivity].
    destruct (proj1 Hrouter eq_refl) as [_ Hfault]. discriminate Hfault.
Defined.

(** ** The message handler, on every path *)

Lemma sent_app (t1 t2 : list event) : sent (t1 ++ t2) = sent t1 ++ sent t2.
Proof. apply omap_app. Qed.

Lemma sent_stream_tokens (tokens : list string) : sent (StreamToken <$> tokens) = [].
Proof. induction tokens as [|tok rest IH]; [reflexivity | exact IH]. Qed.

Lemma sdk_calls_stream_tokens (tokens : list string) :
  sdk_calls (StreamToken <$> tokens) = [].
Proof. induction tokens as [|tok rest IH]; [reflexivity | exact IH]. Qed.

Lemma no_update_in_stream_tokens (tokens : list string) (m : message) :
  ¬ In (Update m) (StreamToken <$> tokens).
Proof.
  intros Hin. apply list_elem_of_In, list_elem_of_fmap in Hin as (tok & [=] & _).
Qed.

Lemma bind_stream_finished {B} (tokens : list string) (acc : string)
    (k : string → M App.session B) (s : App.session) :
  bind (App.stream_tokens tokens None acc) k s
  = prepend (StreamToken <$> tokens) (k (acc +:+ String.concat "" tokens) s).
Proof. apply bind_step. apply stream_tokens_finished. Qed.

Lemma bind_stream_failed {B} (tokens : list string) (msg acc : string)
    (k : string → M App.session B) (s : App.session) :
  bind (App.stream_tokens tokens (Some msg) acc) k s
  = (Raised (SdkError msg), s, StreamToken <$> tokens).
Proof. unfold bind. now rewrite stream_tokens_failed. Qed.

Section ChatFurther.

Variable w : world.
Variable g : App.globals.
Variable text : string.

(** Every path of [on_message], as results that spell out their events. *)
Ltac on_message_paths :=
  let tokens := fresh "tokens" in
  let failure := fresh "failure" in
  let Hstream := fresh "Hstream" in
  unfold App.on_message, App.user_session_get_agent; cbv beta zeta;
  destruct (agent_stream w text) as [tokens [failure|]] eqn:Hstream;
  cbn [fst snd];
  exec; rewrite ?bind_stream_finished, ?bind_stream_failed; exec; peel.

(** X9: [on_message] never changes the session, however the turn ends. *)
Theorem on_message_keeps_session (s : App.session) :
  state_of (App.on_message w g text s) = s.
Proof. on_message_paths; reflexivity. Qed.

(** X10: a turn of [on_message] that returns has sent exactly one message;
    a turn that ends with an exception has sent at most one, the empty
    message that opens a stream, and has not updated it. *)
Theorem on_message_sends_one_message (s : App.session) :
  let r := App.on_message w g text s in
  (outcome_of r = Returned tt → ∃ m, sent (trace_of r) = [m])
  ∧ (∀ e, outcome_of r = Raised e →
       (sent (trace_of r) = [] ∨ sent (trace_of r) = [Message "" [] None])
       ∧ ∀ m, ¬ In (Update m) (trace_of r)).
Proof.
  intros r. subst r.
  on_message_paths; rewrite ?sent_app, ?sent_stream_tokens; simpl;
    (split; [intros Ho; try discriminate Ho; eauto
            |intros e He; try discriminate He]);
    (split; [auto|]); intros m Hin;
    repeat (destruct Hin as [Hin | Hin]; [discriminate|]);
    try contradiction;
    now apply no_update_in_stream_tokens in Hin.
Qed.

(** X11: the agent is asked to answer only the message of the turn, and
    only when the router is bound, its call returned one of the allowed
    route names and the session holds an agent. *)
Theorem agent_called_only_when_allowed (s : App.session) (x : string) :
  In (StreamChat x) (sdk_calls (trace_of (App.on_message w g text s))) →
  x = text
  ∧ App.router_layer g = true
  ∧ sdk_fault w (RouterCall text) = None
  ∧ (∃ n, route_of w text = Some n ∧ In n App.allowed_route_names)
  ∧ is_Some (App.agent s).
Proof.
  on_message_paths; rewrite ?sdk_calls_app, ?sdk_calls_stream_tokens;
    intros Hin; simpl in Hin;
    repeat (destruct Hin as [Hin | Hin]; [try discriminate Hin|]);
    try contradiction;
    injection Hin as <-;
    repeat match goal with
    | H : negb _ = false |- _ => apply negb_false_iff in H
    end;
    repeat match goal with
    | H : py_in _ _ = true |- _ => apply py_in_spec in H
    end;
    repeat split; eauto.
Qed.

(** X12: when the router call raises, or [stream_chat] raises, the turn ends
    with that exception and the handler has sent nothing to the user. *)
Theorem on_message_call_failure_is_silent (s : App.session) (msg : string) :
  App.router_layer g = true →
  sdk_fault w (RouterCall text) = Some msg
  ∨ (sdk_fault w (RouterCall text) = None
     ∧ (∃ n, route_of w text = Some n ∧ In n App.allowed_route_names)
     ∧ is_Some (App.agent s)
     ∧ sdk_fault w (StreamChat text) = Some msg) →
  let r := App.on_message w g text s in
  outcome_of r = Raised (SdkError msg) ∧ sent (trace_of r) = [].
Proof.
  intros Hbound [Hrouter | (Hrouter & Hroute & [a Hagent] & Hchat)] r; subst r.
  - assert (negb (App.router_layer g) = false) as Hbound' by now rewrite Hbound.
    on_message_paths; split; reflexivity.
  - assert (negb (App.router_layer g) = false) as Hbound' by now rewrite Hbound.
    apply py_in_spec in Hroute.
    assert (negb (py_in (route_of w text) App.allowed_route_names) = false)
      as Hroute' by now rewrite Hroute.
    on_message_paths; split; reflexivity.
Qed.

(** X13: when the generator raises after it yielded the fragments [tokens],
    the turn ends with that exception after streaming exactly those
    fragments; the message is never updated with the text gathered so far. *)
Theorem on_message_stream_failure (s : App.session) (a : App.Agent)
    (tokens : list string) (msg : string) :
  App.router_layer g = true →
  sdk_fault w (RouterCall text) = None →
  (∃ n, route_of w text = Some n ∧ In n App.allowed_route_names) →
  App.agent s = Some a →
  sdk_fault w (StreamChat text) = None →
  agent_stream w text = (tokens, Some msg) →
  App.on_message w g text s
  = (Raised (SdkError msg), s,
     [Sdk (RouterCall text); Sdk (StreamChat text); Send (Message "" [] None)]
     ++ (StreamToken <$> tokens)).
Proof.
  intros Hbound Hrouter Hroute Hagent Hchat Hstream.
  apply py_in_spec in Hroute.
  exact (on_message_streams w g text Hbound Hrouter s a tokens (Some msg)
           Hroute Hagent Hchat Hstream).
Qed.

End ChatFurther.

Lemma on_message_sends_one_message_witness :
  ∃ m, sent (trace_of (App.on_message w_answers sample_globals "who is paul allen?"
                         (App.Session (Some "Paul Allen AI Agent") (Some sample_agent))))
       = [m].
Proof.
  apply (on_message_sends_one_message w_answers sample_globals "who is paul allen?"
           (App.Session (Some "Paul Allen AI Agent") (Some sample_agent))).
  reflexivity.
Defined.

Lemma agent_called_only_when_allowed_witness :
  App.router_layer sample_globals = true
  ∧ ∃ n, route_of w_answers "who is paul allen?" = Some n
         ∧ In n App.allowed_route_names.
Proof.
  destruct (agent_called_only_when_allowed w_answers sample_globals
              "who is paul allen?"
              (App.Session (Some "Paul Allen AI Agent") (Some sample_agent))
              "who is paul allen?")
    as (_ & Hbound & _ & Hroute & _).
  - vm_compute. right. left. reflexivity.
  - split; assumption.
Defined.

Lemma on_message_call_failure_witness :
  outcome_of (App.on_message w_router_call_fails sample_globals "hello"
                App.empty_session)
  = Raised (SdkError "timeout")
  ∧ sent (trace_of (App.on_message w_router_call_fails sample_globals "hello"
                      App.empty_session)) = [].
Proof.
  apply (on_message_call_failure_is_silent w_router_call_fails sample_globals
           "hello" App.empty_session "timeout").
  - reflexivity.
  - left. reflexivity.
Defined.

Lemma on_message_stream_failure_witness :
  App.on_message w_stream_drops sample_globals "hello"
    (App.Session None (Some sample_agent))
  = (Raised (SdkError "connection reset by peer"),
     App.Session None (Some sample_agent),
     [Sdk (RouterCall "hello"); Sdk (StreamChat "hello"); Send (Message "" [] None);
      StreamToken "Paul Allen "; StreamToken "co-founded "]).
Proof.
  apply (on_message_stream_failure w_stream_drops sample_globals "hello"
           (App.Session None (Some sample_agent)) sample_agent
           ["Paul Allen "; "co-founded "] "connection reset by peer").
  - reflexivity.
  - reflexivity.
  - exists "greetings". split; [reflexivity | simpl; tauto].
  - reflexivity.
  - reflexivity.
  - reflexivity.
Defined.

(** ** Session start, on every path *)

Section StartFurther.

Variable w : world.
Variable g : App.globals.

(** The guarded setup either goes through, which needs both Pinecone
    settings and eight calls that do not raise, or leaves the session as it
    was and reports the first thing that went wrong. *)
Lemma guarded_setup_cases (s : App.session) :
  let r := App.guarded_setup w g s in
  outcome_of r = Returned tt
  ∧ ((setup_can_succeed w g
      ∧ state_of r = App.Session (App.author_name s) (Some built_agent)
      ∧ sdk_calls (trace_of r) = setup_calls w g
      ∧ sent (trace_of r) = [])
     ∨ (¬ setup_can_succeed w g
        ∧ state_of r = s
        ∧ ∃ e, sent (trace_of r) = [App.setup_error_message e]
             ∧ last (trace_of r) = Some (Send (App.setup_error_message e))
             ∧ In (Log ERROR ("Error during chat start: " +:+ str_exn e)) (trace_of r)
             ∧ (e = ValueError "PINECONE_API_KEY or PINECONE_ENVIRONMENT not found in .env file."
                ∨ ∃ c msg, In c (setup_calls w g)
                           ∧ sdk_fault w c = Some msg ∧ e = SdkError msg))).
Proof.
  unfold App.guarded_setup, App.setup_agent, setup_can_succeed, setup_calls. run.
  destruct (truthy (getenv w "PINECONE_API_KEY")) eqn:Hkey; simpl.
  2:{ split; [reflexivity|]. right. split; [intros ([=] & _)|].
      split; [reflexivity|]. eexists. repeat split; simpl; auto. }
  destruct (truthy (getenv w "PINECONE_REGION")) eqn:Hregion; simpl.
  2:{ split; [reflexivity|]. right. split; [intros (_ & [=] & _)|].
      split; [reflexivity|]. eexists. repeat split; simpl; auto. }
  fault_cases; (split; [reflexivity|]);
    first
      [ left; split;
        [ split; [reflexivity | split; [reflexivity|]];
          repeat constructor; assumption
        | repeat split; reflexivity ]
      | right; split;
        [ intros (_ & _ & Hall);
          repeat match goal with
          | H : Forall _ (_ :: _) |- _ => apply Forall_cons in H as [? H]
          end; congruence
        | split; [reflexivity|];
          eexists; split; [reflexivity|]; split; [reflexivity|];
          split; [simpl; tauto|];
          right; eexists _, _; split; [|split; [eassumption | reflexivity]];
          simpl; tauto ] ].
Qed.

Lemma on_chat_start_agent (s : App.session) :
  let r := App.on_chat_start w g s in
  (setup_can_succeed w g ∧ App.agent (state_of r) = Some built_agent)
  ∨ (¬ setup_can_succeed w g ∧ App.agent (state_of r) = App.agent s).
Proof.
  intros r. subst r. rewrite on_chat_start_run.
  destruct (guarded_setup_cases
              (App.Session (Some "Paul Allen AI Agent") (App.agent s)))
    as (_ & [(Hok & Hs & _) | (Hno & Hs & _)]);
    cbn [outcome_of state_of trace_of fst snd] in *; rewrite Hs; auto.
Qed.


(** X15: in a session that has no agent yet, session start installs the
    agent exactly when the setup can succeed; it then made the eight setup
    calls in order and sent the three opening messages and nothing else. *)
Theorem agent_installed_iff_setup_succeeds (s : App.session) :
  App.agent s = None →
  let r := App.on_chat_start w g s in
  (is_Some (App.agent (state_of r)) ↔ setup_can_succeed w g)
  ∧ (setup_can_succeed w g →
     App.agent (state_of r) = Some built_agent
     ∧ sdk_calls (trace_of r) = setup_calls w g
     ∧ sent (trace_of r) = App.intro_messages).
Proof.
  intros Hagent r. subst r. rewrite on_chat_start_run.
  destruct (guarded_setup_cases
              (App.Session (Some "Paul Allen AI Agent") (App.agent s)))
    as (_ & [(Hok & Hs & Hcalls & Hsent) | (Hno & Hs & _)]);
    cbn [outcome_of state_of trace_of fst snd] in *; rewrite Hs.
  - split; [split; [auto | intros _; eexists; reflexivity]|].
    intros _. split; [reflexivity|].
    rewrite sdk_calls_app, sent_app, Hcalls, Hsent. split; reflexivity.
  - split; [|intros Hok; contradiction].
    split; [|intros Hok; contradiction].
    simpl. rewrite Hagent. intros [a [=]].
Qed.

End StartFurther.

Lemma agent_installed_witness :
  App.agent (state_of (App.on_chat_start w_answers sample_globals App.empty_session))
  = Some built_agent.
Proof.
  destruct (agent_installed_iff_setup_succeeds w_answers sample_globals
              App.empty_session eq_refl) as (_ & Hok).
  apply Hok. repeat split; try reflexivity. repeat constructor.
Defined.

(** ** The handlers together *)

Section Together.

Variable w : world.
Variable py_int : string → option Z.

(** X16: when the encoder or the router cannot be built at import, module
    initialisation still returns, and with the globals it returns every
    message gets the fixed "router not initialized" reply: no SDK call is
    made, so neither the router nor the agent is asked. *)
Theorem router_failure_at_import_disables_chat
    (g : App.globals) (text : string) (s : App.session) :
  outcome_of (App.module_init w py_int tt) = Returned g →
  is_Some (sdk_fault w (OpenAIEncoder (configured_model w) (getenv w "OPENAI_API_KEY")))
  ∨ is_Some (sdk_fault w (SemanticRouter Router.allowed_routes "merge-force-local")) →
  App.on_message w g text s
  = (Returned tt, s, [Send (Message App.router_missing_text [] None)]).
Proof.
  intros Hinit Hdown.
  assert (App.router_layer g = false) as Hunbound.
  { revert Hinit. unfold App.module_init, configured_model in *.
    destruct (app_load_embedding_dim_logs w py_int tt) as (t0 & E0 & _ & _).
    rewrite (bind_returned _ _ _ _ _ _ E0).
    destruct (negb (truthy _)); [discriminate|]. run.
    destruct (sdk_fault w (OpenAIEmbedding _ _ _)); simpl; [discriminate|].
    destruct (sdk_fault w (OpenAIEncoder _ _)) as [m1|]; simpl.
    - intros [= <-]. reflexivity.
    - destruct (sdk_fault w (SemanticRouter _ _)) as [m2|]; simpl.
      + intros [= <-]. reflexivity.
      + destruct Hdown as [[? [=]] | [? [=]]]. }
  unfold App.on_message. rewrite Hunbound. reflexivity.
Qed.

(** X17: a session whose start could not build the agent answers every
    message of an allowed route with the fixed "agent not available"
    reply. *)
Theorem failed_start_then_message_unavailable
    (g : App.globals) (text : string) (s : App.session) :
  App.agent s = None →
  ¬ setup_can_succeed w g →
  App.router_layer g = true →
  sdk_fault w (RouterCall text) = None →
  (∃ n, route_of w text = Some n ∧ In n App.allowed_route_names) →
  trace_of (App.on_message w g text (state_of (App.on_chat_start w g s)))
  = [Sdk (RouterCall text); Send (Message App.agent_unavailable_text [] None)].
Proof.
  intros Hagent Hno Hbound Hrouter Hroute.
  destruct (on_chat_start_agent w g s) as [(Hok & _) | (_ & Hkept)];
    [contradiction|].
  rewrite (on_message_no_agent w g text Hbound Hrouter).
  - reflexivity.
  - now apply py_in_spec.
  - now rewrite Hkept.
Qed.

(** X18: a session whose start built the agent answers a message of an
    allowed route, when the stream ends normally, by streaming the
    fragments and finishing with their concatenation. *)
Theorem successful_start_then_message_answers
    (g : App.globals) (text : string) (s : App.session) (tokens : list string) :
  setup_can_succeed w g →
  App.router_layer g = true →
  sdk_fault w (RouterCall text) = None →
  (∃ n, route_of w text = Some n ∧ In n App.allowed_route_names) →
  sdk_fault w (StreamChat text) = None →
  agent_stream w text = (tokens, None) →
  trace_of (App.on_message w g text (state_of (App.on_chat_start w g s)))
  = [Sdk (RouterCall text); Sdk (StreamChat text); Send (Message "" [] None)]
    ++ (StreamToken <$> tokens)
    ++ [Update (Message (String.concat "" tokens) [] None)].
Proof.
  intros Hok Hbound Hrouter Hroute Hchat Hstream.
  destruct (on_chat_start_agent w g s) as [(_ & Hbuilt) | (Hno & _)];
    [|contradiction].
  apply py_in_spec in Hroute.
  rewrite (on_message_streams w g text Hbound Hrouter _ built_agent tokens None
             Hroute Hbuilt Hchat Hstream).
  reflexivity.
Qed.

End Together.

Lemma router_failure_at_import_witness :
  App.on_message w_router_down
    (App.Globals (Some "paul-allen") (Some "sk") "text-embedding-3-small" 1024 false)
    "who is paul allen?" App.empty_session
  = (Returned tt, App.empty_session,
     [Send (Message "Semantic Router is not initialized. Please check server logs." [] None)]).
Proof.
  apply (router_failure_at_import_disables_chat w_router_down ascii_int).
  - reflexivity.
  - right. eexists. reflexivity.
Defined.

Lemma failed_start_then_message_witness :
  trace_of (App.on_message w_index_missing sample_globals "hello"
              (state_of (App.on_chat_start w_index_missing sample_globals
                           App.empty_session)))
  = [Sdk (RouterCall "hello");
     Send (Message "Sorry, the agent is not available." [] None)].
Proof.
  apply (failed_start_then_message_unavailable w_index_missing sample_globals
           "hello" App.empty_session).
  - reflexivity.
  - intros (_ & _ & Hall). apply Forall_cons in Hall as [_ Hall].
    apply Forall_cons in Hall as [Hindex _]. discriminate Hindex.
  - reflexivity.
  - reflexivity.
  - exists "greetings". split; [reflexivity | simpl; tauto].
Defined.

Lemma successful_start_then_message_witness :
  last (trace_of (App.on_message w_answers sample_globals "who is paul allen?"
                    (state_of (App.on_chat_start w_answers sample_globals
                                 App.empty_session))))
  = Some (Update (Message "Paul Allen co-founded Microsoft." [] None)).
Proof.
  rewrite (successful_start_then_message_answers w_answers sample_globals
             "who is paul allen?" App.empty_session
             ["Paul Allen "; "co-founded "; "Microsoft."]).
  - reflexivity.
  - repeat split; try reflexivity. repeat constructor.
  - reflexivity.
  - reflexivity.
  - exists "paul_allen_questions". split; [reflexivity | simpl; tauto].
  - reflexivity.
  - reflexivity.
Defined.
